(** * k8s-glance-backend: a REST facade over the cluster API

    Shallow embedding of the resource API modules, the HTTP handlers, the
    router and the client adapter, followed by the properties of the
    specification.

    Conventions of the embedding.
    - A Go map that may be [nil] is an [option (gmap ..)]: [None] is the nil
      map, [Some m] a non-nil one.  A slice the code only ranges over is a
      [list]; a slice the code compares with [nil] is an [option (list ..)].
    - A Go [(value, error)] result is a [Result]; [error] has no nil value.
    - Every call that leaves the process (the remote API through client-go,
      the operating system, the HTTP server) is a [Call]; a function of the
      program is a [Prog], a finite tree of calls, run against an environment
      that answers them.  A nil dereference is [Panic]; [log.Fatalf] is
      [Fatal].
    - The logger lines ([LogInfo], [LogError], [Printf]) carry no data back
      into the program and are left out. *)

From Stdlib Require Import ZArith String List DecimalString.
From stdpp Require Import base gmap strings list.

Set Warnings "-register-all".
Open Scope Z_scope.

(** ** Residual Go library behaviour *)

(** [%d] of [fmt] on an integer, and [intstr.IntOrString.String] on an
    integer value: decimal digits with a leading minus sign. *)
Definition itoa (z : Z) : string := NilZero.string_of_int (Z.to_int z).

(** [[]byte(s)] *)
Definition bytes_of (s : string) : list Byte.byte := list_byte_of_string s.


(** ** Errors *)

(** [metav1.Status] as far as the program reads it. *)
Module Status.
Record t : Type := mk {
  Message : string;
  Code : Z;
  Reason : string
}.
End Status.

(** A non-nil Go [error] value. *)
Inductive error : Type :=
| StatusError (ErrStatus : Status.t)       (* *errors.StatusError of apimachinery *)
| ErrorString (msg : string)               (* any other error, by its text *)
| WrapError (msg : string) (cause : error) (* fmt.Errorf with the verb %w *).

(** [err.Error()] *)
Definition Error (err : error) : string :=
  match err with
  | StatusError st => Status.Message st
  | ErrorString msg => msg
  | WrapError msg _ => msg
  end.

Inductive Result (A : Type) : Type :=
| Ok (a : A)
| Err (err : error).
Arguments Ok {A} a.
Arguments Err {A} err.

(** ** Values handed to [c.JSON] *)

Definition Time : Type := Z.

Inductive Value : Type :=
| VNull
| VBool (b : bool)
| VInt (z : Z)
| VString (s : string)
| VTime (t : Time)
| VStrMap (m : gmap string string)               (* map[string]string *)
| VBytesMap (m : gmap string (list Byte.byte))   (* map[string][]byte *)
| VStrListMap (m : gmap string (list string))    (* map[string][]string *)
| VIntMap (m : gmap string Z)                    (* map[string]int *)
| VArray (l : list Value)
| VObject (fields : list (string * Value)).

(** A nil map or slice or pointer is rendered as [null]. *)
Definition opt_value {A : Type} (f : A -> Value) (o : option A) : Value :=
  match o with Some a => f a | None => VNull end.

Definition VStrings (l : list string) : Value := VArray (map VString l).

(** [var result []T] that is appended to: nil when nothing was appended. *)
Definition slice_value (l : list Value) : Value :=
  match l with [] => VNull | _ => VArray l end.

(** Field of an object value ([VNull] when absent or not an object). *)
Fixpoint assoc (k : string) (fields : list (string * Value)) : option Value :=
  match fields with
  | [] => None
  | (k', v) :: rest => if String.eqb k k' then Some v else assoc k rest
  end.

Definition field (k : string) (v : Value) : option Value :=
  match v with VObject fields => assoc k fields | _ => None end.

Definition keys (v : Value) : list string :=
  match v with VObject fields => map fst fields | _ => [] end.

(** ** Object model of the remote API (the fields the program touches) *)

Module ObjectMeta.
Record t : Type := mk {
  Name : string;
  Namespace : string;
  Labels : option (gmap string string);
  Annotations : option (gmap string string);
  CreationTimestamp : Time;
  ResourceVersion : string
}.
Definition set_Labels (l : option (gmap string string)) (m : t) : t :=
  mk (Name m) (Namespace m) l (Annotations m) (CreationTimestamp m) (ResourceVersion m).
Definition set_Annotations (a : option (gmap string string)) (m : t) : t :=
  mk (Name m) (Namespace m) (Labels m) a (CreationTimestamp m) (ResourceVersion m).
(** [metav1.ObjectMeta{Name: .., Namespace: .., Labels: .., Annotations: ..}] *)
Definition lit (name ns : string) (l a : option (gmap string string)) : t :=
  mk name ns l a 0 "".
End ObjectMeta.

Module Secret.
Record t : Type := mk {
  Meta : ObjectMeta.t;
  Type_ : string;
  Data : option (gmap string (list Byte.byte));
  StringData : option (gmap string string)
}.
Definition set_Meta (m : ObjectMeta.t) (s : t) : t :=
  mk m (Type_ s) (Data s) (StringData s).
Definition set_Data (d : option (gmap string (list Byte.byte))) (s : t) : t :=
  mk (Meta s) (Type_ s) d (StringData s).
Definition set_StringData (d : option (gmap string string)) (s : t) : t :=
  mk (Meta s) (Type_ s) (Data s) d.
End Secret.

Module ConfigMap.
Record t : Type := mk {
  Meta : ObjectMeta.t;
  Data : option (gmap string string);
  BinaryData : option (gmap string (list Byte.byte))
}.
Definition set_Meta (m : ObjectMeta.t) (c : t) : t :=
  mk m (Data c) (BinaryData c).
Definition set_Data (d : option (gmap string string)) (c : t) : t :=
  mk (Meta c) d (BinaryData c).
Definition set_BinaryData (d : option (gmap string (list Byte.byte))) (c : t) : t :=
  mk (Meta c) (Data c) d.
End ConfigMap.

(** [len(m)] of a map that may be nil. *)
Definition map_len {V : Type} (m : option (gmap string V)) : Z :=
  match m with Some m => Z.of_nat (size m) | None => 0 end.

(** Pods, as the usage scan and the namespace metrics read them. *)

Module Volume.
Record t : Type := mk {
  Name : string;
  ConfigMap : option string;  (* volume.ConfigMap, nil or its Name *)
  Secret : option string      (* volume.Secret, nil or its SecretName *)
}.
End Volume.

Module EnvFromSource.
Record t : Type := mk {
  ConfigMapRef : option string;  (* nil or its Name *)
  SecretRef : option string      (* nil or its Name *)
}.
End EnvFromSource.

Module EnvVarSource.
Record t : Type := mk {
  ConfigMapKeyRef : option string;  (* nil or its Name *)
  SecretKeyRef : option string      (* nil or its Name *)
}.
End EnvVarSource.

Module EnvVar.
Record t : Type := mk {
  Name : string;
  Value_ : string;
  ValueFrom : option EnvVarSource.t
}.
End EnvVar.

Module Container.
Record t : Type := mk {
  Name : string;
  Image : string;
  Ports : list Z;  (* ContainerPort of each entry *)
  EnvFrom : list EnvFromSource.t;
  Env : list EnvVar.t
}.
Definition set_Image (i : string) (c : t) : t :=
  mk (Name c) i (Ports c) (EnvFrom c) (Env c).
Definition set_Env (e : list EnvVar.t) (c : t) : t :=
  mk (Name c) (Image c) (Ports c) (EnvFrom c) e.
End Container.

Module Pod.
Record t : Type := mk {
  Meta : ObjectMeta.t;
  Volumes : list Volume.t;        (* Spec.Volumes *)
  Containers : list Container.t;  (* Spec.Containers *)
  Phase : string                  (* Status.Phase, a PodPhase *)
}.
End Pod.

(** Services and their endpoints. *)

Inductive IntOrString : Type :=
| IntVal (i : Z)
| StrVal (s : string).

(** [intstr.FromInt] *)
Definition FromInt (i : Z) : IntOrString := IntVal i.

(** [IntOrString.String] *)
Definition IntOrString_String (v : IntOrString) : string :=
  match v with
  | StrVal s => s
  | IntVal i => itoa i
  end.

Module ServicePort.
Record t : Type := mk {
  Name : string;
  Protocol : string;
  Port : Z;
  TargetPort : IntOrString;
  NodePort : Z
}.
Definition set_NodePort (n : Z) (p : t) : t :=
  mk (Name p) (Protocol p) (Port p) (TargetPort p) n.
End ServicePort.

Module LoadBalancerIngress.
Record t : Type := mk { IP : string; Hostname : string }.
End LoadBalancerIngress.

Module Service.
Record t : Type := mk {
  Meta : ObjectMeta.t;
  Type_ : string;                        (* Spec.Type *)
  ClusterIP : string;                    (* Spec.ClusterIP *)
  ExternalIPs : option (list string);    (* Spec.ExternalIPs *)
  Ports : list ServicePort.t;            (* Spec.Ports *)
  Selector : option (gmap string string);(* Spec.Selector *)
  SessionAffinity : string;              (* Spec.SessionAffinity *)
  LoadBalancer : list LoadBalancerIngress.t  (* Status.LoadBalancer.Ingress *)
}.
Definition set_Meta (m : ObjectMeta.t) (s : t) : t :=
  mk m (Type_ s) (ClusterIP s) (ExternalIPs s) (Ports s) (Selector s)
     (SessionAffinity s) (LoadBalancer s).
Definition set_ExternalIPs (e : option (list string)) (s : t) : t :=
  mk (Meta s) (Type_ s) (ClusterIP s) e (Ports s) (Selector s)
     (SessionAffinity s) (LoadBalancer s).
Definition set_Ports (p : list ServicePort.t) (s : t) : t :=
  mk (Meta s) (Type_ s) (ClusterIP s) (ExternalIPs s) p (Selector s)
     (SessionAffinity s) (LoadBalancer s).
Definition set_Selector (sel : option (gmap string string)) (s : t) : t :=
  mk (Meta s) (Type_ s) (ClusterIP s) (ExternalIPs s) (Ports s) sel
     (SessionAffinity s) (LoadBalancer s).
End Service.

Module ObjectReference.
Record t : Type := mk { Kind : string; Namespace : string; Name : string }.
End ObjectReference.

Module EndpointAddress.
Record t : Type := mk {
  IP : string;
  Hostname : string;
  NodeName : option string;
  TargetRef : option ObjectReference.t
}.
End EndpointAddress.

Module Endpoints.
Record t : Type := mk {
  Meta : ObjectMeta.t;
  Subsets : list (list EndpointAddress.t)  (* Addresses of each subset *)
}.
End Endpoints.

(** Deployments. *)

Module DeploymentCondition.
Record t : Type := mk {
  Type_ : string;
  Status : string;
  LastUpdateTime : Time;
  LastTransitionTime : Time;
  Reason : string;
  Message : string
}.
End DeploymentCondition.

Module Deployment.
Record t : Type := mk {
  Meta : ObjectMeta.t;
  Replicas : option Z;                         (* Spec.Replicas, a *int32 *)
  Selector : option (gmap string string);      (* Spec.Selector, nil or its MatchLabels *)
  TemplateLabels : option (gmap string string);(* Spec.Template.ObjectMeta.Labels *)
  Containers : list Container.t;               (* Spec.Template.Spec.Containers *)
  Strategy : string;                           (* Spec.Strategy.Type *)
  StatusReplicas : Z;
  UpdatedReplicas : Z;
  ReadyReplicas : Z;
  AvailableReplicas : Z;
  Conditions : list DeploymentCondition.t
}.
Definition set_Meta (m : ObjectMeta.t) (d : t) : t :=
  mk m (Replicas d) (Selector d) (TemplateLabels d) (Containers d) (Strategy d)
     (StatusReplicas d) (UpdatedReplicas d) (ReadyReplicas d) (AvailableReplicas d)
     (Conditions d).
Definition set_Replicas (r : option Z) (d : t) : t :=
  mk (Meta d) r (Selector d) (TemplateLabels d) (Containers d) (Strategy d)
     (StatusReplicas d) (UpdatedReplicas d) (ReadyReplicas d) (AvailableReplicas d)
     (Conditions d).
Definition set_Containers (c : list Container.t) (d : t) : t :=
  mk (Meta d) (Replicas d) (Selector d) (TemplateLabels d) c (Strategy d)
     (StatusReplicas d) (UpdatedReplicas d) (ReadyReplicas d) (AvailableReplicas d)
     (Conditions d).
End Deployment.

(** Ingresses. *)

Module ServiceBackendPort.
Record t : Type := mk { Name : string; Number : Z }.
End ServiceBackendPort.

Module HTTPIngressPath.
Record t : Type := mk {
  Path : string;
  PathType : option string;
  Service : option (string * ServiceBackendPort.t)  (* Backend.Service: nil or (Name, Port) *)
}.
End HTTPIngressPath.

Module IngressRule.
Record t : Type := mk {
  Host : string;
  HTTP : option (list HTTPIngressPath.t)  (* nil or its Paths *)
}.
End IngressRule.

Module IngressTLS.
Record t : Type := mk {
  Hosts : option (list string);
  SecretName : string
}.
End IngressTLS.

Module Ingress.
Record t : Type := mk {
  Meta : ObjectMeta.t;
  IngressClassName : option string;          (* Spec.IngressClassName, a *string *)
  Rules : list IngressRule.t;                (* Spec.Rules *)
  TLS : list IngressTLS.t;                   (* Spec.TLS *)
  LoadBalancer : list LoadBalancerIngress.t  (* Status.LoadBalancer.Ingress *)
}.
Definition set_Meta (m : ObjectMeta.t) (i : t) : t :=
  mk m (IngressClassName i) (Rules i) (TLS i) (LoadBalancer i).
Definition set_IngressClassName (c : option string) (i : t) : t :=
  mk (Meta i) c (Rules i) (TLS i) (LoadBalancer i).
Definition set_Rules (r : list IngressRule.t) (i : t) : t :=
  mk (Meta i) (IngressClassName i) r (TLS i) (LoadBalancer i).
Definition set_TLS (l : list IngressTLS.t) (i : t) : t :=
  mk (Meta i) (IngressClassName i) (Rules i) l (LoadBalancer i).
End Ingress.

(** ** Calls that leave the process, and programs over them *)

(** Resource kinds of the typed client. *)
Inductive Kind : Type :=
| KSecret | KConfigMap | KPod | KService | KEndpoints | KDeployment | KIngress.

Definition Obj (k : Kind) : Type :=
  match k with
  | KSecret => Secret.t
  | KConfigMap => ConfigMap.t
  | KPod => Pod.t
  | KService => Service.t
  | KEndpoints => Endpoints.t
  | KDeployment => Deployment.t
  | KIngress => Ingress.t
  end.

(** [rest.Config], the fields [NewClient] sets. *)
Module RestConfig.
Record t : Type := mk {
  Host : string;
  BearerToken : string;
  Insecure : bool  (* TLSClientConfig.Insecure *)
}.
End RestConfig.

(** [*kubernetes.Clientset]: opaque, named by the configuration it was built from. *)
Inductive Clientset : Type := mkClientset (cfg : RestConfig.t).

Inductive Call : Type :=
(* clientset.<Group>().<Kind>(ns).<Verb>(ctx, ..) *)
| ApiList (k : Kind) (ns : string)
| ApiGet (k : Kind) (ns name : string)
| ApiCreate (k : Kind) (ns : string) (obj : Obj k)
| ApiUpdate (k : Kind) (ns : string) (obj : Obj k)
| ApiDelete (k : Kind) (ns name : string)
(* clientset.Discovery().ServerVersion() *)
| ServerVersion (cs : Clientset)
(* kubernetes.NewForConfig and clientcmd's deferred loader *)
| NewForConfig (cfg : RestConfig.t)
| ClientConfig (explicitPath server : string)
(* process environment *)
| Getenv (key : string)
| LookupEnv (key : string)
| DotenvLoad
| UserHomeDir
| PathJoin (parts : list string)
| PathClean (path : string)
| Stat (path : string)
(* HTTP server *)
| ListenAndServe (addr : string)
| WaitSignal
| Shutdown.

Definition Resp (c : Call) : Type :=
  match c with
  | ApiList k _ => Result (list (Obj k))
  | ApiGet k _ _ => Result (Obj k)
  | ApiCreate k _ _ => Result (Obj k)
  | ApiUpdate k _ _ => Result (Obj k)
  | ApiDelete _ _ _ => option error
  | ServerVersion _ => Result string
  | NewForConfig _ => Result Clientset
  | ClientConfig _ _ => Result RestConfig.t
  | Getenv _ => string
  | LookupEnv _ => option string
  | DotenvLoad => option error
  | UserHomeDir => Result string
  | PathJoin _ => string
  | PathClean _ => string
  | Stat _ => option (error * bool)  (* the error and os.IsNotExist of it *)
  | ListenAndServe _ => unit         (* the serving goroutine is started *)
  | WaitSignal => unit
  | Shutdown => option error
  end.

Inductive Prog (R : Type) : Type :=
| Ret (r : R)
| Vis (c : Call) (k : Resp c -> Prog R)
| Panic (msg : string)
| Fatal (msg : string).
Arguments Ret {R} r.
Arguments Vis {R} c k.
Arguments Panic {R} msg.
Arguments Fatal {R} msg.

Fixpoint bind {A B : Type} (p : Prog A) (f : A -> Prog B) : Prog B :=
  match p with
  | Ret a => f a
  | Vis c k => Vis c (fun x => bind (k x) f)
  | Panic msg => Panic msg
  | Fatal msg => Fatal msg
  end.

Definition call (c : Call) : Prog (Resp c) := Vis c Ret.

Notation "'let*' x ':=' p 'in' q" := (bind p (fun x => q))
  (at level 10, x name, p at level 100, q at level 200).

(** How a run ends. *)
Inductive Outcome (R : Type) : Type :=
| Returned (r : R)
| Panicked (msg : string)
| Exited (msg : string).
Arguments Returned {R} r.
Arguments Panicked {R} msg.
Arguments Exited {R} msg.

(** The world outside the process: it answers each call and moves on. *)
Definition Env (S : Type) : Type := forall c : Call, S -> Resp c * S.

(** A call together with the answer it received. *)
Definition Event : Type := { c : Call & Resp c }.

Definition event (c : Call) (x : Resp c) : Event := existT c x.

Record Run (R S : Type) : Type := mkRun {
  trace : list Event;     (* the calls issued and their answers, in order *)
  outcome : Outcome R;
  final : S
}.
Arguments mkRun {R S} trace outcome final.
Arguments trace {R S} r.
Arguments outcome {R S} r.
Arguments final {R S} r.

Definition calls {R S : Type} (r : Run R S) : list Call := map (@projT1 _ _) (trace r).

Fixpoint run {R S : Type} (env : Env S) (p : Prog R) (s : S) : Run R S :=
  match p with
  | Ret r => mkRun [] (Returned r) s
  | Panic msg => mkRun [] (Panicked msg) s
  | Fatal msg => mkRun [] (Exited msg) s
  | Vis c k =>
      let '(x, s') := env c s in
      let r := run env (k x) s' in
      mkRun (event c x :: trace r) (outcome r) (final r)
  end.

(** What the Go runtime reports for [*p] with [p == nil]. *)
Definition nilDereference : string :=
  "runtime error: invalid memory address or nil pointer dereference".

(** ** Package base *)

Module Base.

(** [BaseAPI.HandleError], the branch [err != nil]; every call from the
    resource modules is made under that guard. *)
Definition HandleError (err : error) (operation : string) : error :=
  match err with
  | StatusError st =>
      ErrorString (operation +:+ " failed: " +:+ Error err +:+
                   " (Code: " +:+ itoa (Status.Code st) +:+
                   ", Reason: " +:+ Status.Reason st +:+ ")")
  | _ => WrapError (operation +:+ " failed: " +:+ Error err) err
  end.

Record APIResponse : Type := mkAPIResponse {
  Success : bool;
  Data : Value;     (* json:"data,omitempty" *)
  Error_ : string   (* json:"error,omitempty" *)
}.

Definition NewSuccessResponse (data : Value) : APIResponse :=
  mkAPIResponse true data "".

Definition NewErrorResponse (err : error) : APIResponse :=
  mkAPIResponse false VNull (Error err).

(** The JSON object of an [APIResponse], with its [omitempty] tags. *)
Definition APIResponse_value (r : APIResponse) : Value :=
  VObject ([("success", VBool (Success r))]
           ++ match Data r with VNull => [] | d => [("data", d)] end
           ++ (if String.eqb (Error_ r) "" then [] else [("error", VString (Error_ r))])).

End Base.

(** ** HTTP layer *)

Definition StatusOK := 200.
Definition StatusCreated := 201.
Definition StatusBadRequest := 400.
Definition StatusInternalServerError := 500.

(** What [c.JSON(code, obj)] writes. *)
Record Response : Type := JSON {
  code : Z;
  body : Value
}.

(** [gin.Context] as the handlers read it. *)
Record Context : Type := mkContext {
  Param : string -> string;  (* "" for a parameter the route does not bind *)
  Query : string -> string
}.

(** Outcome of [c.ShouldBindJSON(&req)]: gin decodes the body into the
    handler's request struct and validates its [binding] tags; it reports a
    missing body, a malformed body, a field of the wrong JSON type or an
    absent required field as an error. *)
Inductive Bind (A : Type) : Type :=
| Bound (req : A)
| BindError (err : error).
Arguments Bound {A} req.
Arguments BindError {A} err.

(** [gin.H{"success": false, "error": msg}] *)
Definition failure (msg : string) : Value :=
  VObject [("success", VBool false); ("error", VString msg)].

Definition serverError (err : error) : Response :=
  JSON StatusInternalServerError (failure (Error err)).

Definition badRequest (err : error) : Response :=
  JSON StatusBadRequest (failure ("Invalid request format: " +:+ Error err)).

(** [gin.H{"success": true, "data": data}] *)
Definition success (data : Value) : Value :=
  VObject [("success", VBool true); ("data", data)].

(** ** The usage scan

    [GetConfigMapUsage] and [GetSecretUsage] carry the same loop over the
    pods of a namespace; they differ in the fields they read
    ([volume.ConfigMap]/[volume.Secret], [env.ConfigMapRef]/[env.SecretRef],
    [ConfigMapKeyRef]/[SecretKeyRef]), which are the three selectors here. *)

Module UsageScan.

Section Scan.

Variable volumeRef : Volume.t -> option string.
Variable envFromRef : EnvFromSource.t -> option string.
Variable keyRef : EnvVarSource.t -> option string.
Variable name : string.

(** [ref != nil && ref.Name == name] *)
Definition names (ref : option string) : bool :=
  match ref with
  | Some n => String.eqb n name
  | None => false
  end.

(** The loop variables [isUsed] and [usageDetails]. *)
Record state : Type := mkState {
  isUsed : bool;
  usageDetails : gmap string (list string)
}.

(** [isUsed = true; usageDetails[key] = append(usageDetails[key], x)] *)
Definition record (key x : string) (st : state) : state :=
  mkState true
    (<[key := match usageDetails st !! key with
              | Some l => l ++ [x]
              | None => [x]
              end]> (usageDetails st)).

Definition scanVolumes (volumes : list Volume.t) (st : state) : state :=
  fold_left (fun st volume =>
               if names (volumeRef volume)
               then record "volumeMounts" (Volume.Name volume) st
               else st)
            volumes st.

Definition scanEnvFrom (container : Container.t) (st : state) : state :=
  fold_left (fun st env =>
               if names (envFromRef env)
               then record "envFrom" (Container.Name container) st
               else st)
            (Container.EnvFrom container) st.

Definition scanEnv (container : Container.t) (st : state) : state :=
  fold_left (fun st env =>
               match EnvVar.ValueFrom env with
               | Some valueFrom =>
                   if names (keyRef valueFrom)
                   then record "envVars"
                          (Container.Name container +:+ ":" +:+ EnvVar.Name env) st
                   else st
               | None => st
               end)
            (Container.Env container) st.

Definition scanContainers (containers : list Container.t) (st : state) : state :=
  fold_left (fun st container => scanEnv container (scanEnvFrom container st))
            containers st.

Definition scanPod (pod : Pod.t) : state :=
  scanContainers (Pod.Containers pod)
    (scanVolumes (Pod.Volumes pod) (mkState false ∅)).

(** One element of [usingPods]. *)
Record entry : Type := mkEntry {
  name_ : string;
  status : string;
  usage : gmap string (list string)
}.

(** The loop over [pods.Items], appending to [usingPods]. *)
Definition usingPods (pods : list Pod.t) : list entry :=
  fold_left (fun usingPods pod =>
               let st := scanPod pod in
               if isUsed st
               then usingPods ++ [mkEntry (ObjectMeta.Name (Pod.Meta pod))
                                          (Pod.Phase pod) (usageDetails st)]
               else usingPods)
            pods [].

Definition entry_value (e : entry) : Value :=
  VObject [("name", VString (name_ e));
           ("status", VString (status e));
           ("usage", VStrListMap (usage e))].

(** The report under the key [listKey] ("podsUsingConfigMap" or
    "podsUsingSecret"). *)
Definition report (listKey : string) (pods : list Pod.t) : Base.APIResponse :=
  let usingPods := usingPods pods in
  Base.NewSuccessResponse
    (VObject [(listKey, slice_value (map entry_value usingPods));
              ("totalPods", VInt (Z.of_nat (length usingPods)))]).

End Scan.

End UsageScan.

(** ** Package secret *)

Module secret.

Module SecretAPI.

(** [secret.Data = nil; secret.StringData = nil] *)
Definition strip (s : Secret.t) : Secret.t :=
  Secret.set_StringData None (Secret.set_Data None s).

Definition ListSecrets (namespace : string) : Prog (Result (list Secret.t)) :=
  let* r := call (ApiList KSecret namespace) in
  match r with
  | Err err => Ret (Err (Base.HandleError err "list secrets"))
  | Ok secrets => Ret (Ok (map strip secrets))
  end.

Definition GetSecret (namespace name : string) : Prog (Result Secret.t) :=
  let* r := call (ApiGet KSecret namespace name) in
  match r with
  | Err err => Ret (Err (Base.HandleError err "get secret"))
  | Ok secret => Ret (Ok (strip secret))
  end.

(** The keys come in the iteration order of the map, which Go leaves
    unspecified; here the order of [map_to_list]. *)
Definition GetSecretKeys (namespace name : string) : Prog (Result Base.APIResponse) :=
  let* r := call (ApiGet KSecret namespace name) in
  match r with
  | Err err => Ret (Err (Base.HandleError err "get secret keys"))
  | Ok secret =>
      let keys := match Secret.Data secret with
                  | Some d => map fst (map_to_list d)
                  | None => []
                  end in
      Ret (Ok (Base.NewSuccessResponse
                 (VObject [("keys", VStrings keys);
                           ("type", VString (Secret.Type_ secret))])))
  end.

Definition GetSecretUsage (namespace name : string) : Prog (Result Base.APIResponse) :=
  let* r := call (ApiList KPod namespace) in
  match r with
  | Err err => Ret (Err (Base.HandleError err "list pods for secret usage"))
  | Ok pods =>
      Ret (Ok (UsageScan.report Volume.Secret EnvFromSource.SecretRef
                 EnvVarSource.SecretKeyRef name "podsUsingSecret" pods))
  end.

Definition CreateSecret (namespace : string) (secret : Secret.t) : Prog (Result Secret.t) :=
  let* r := call (ApiCreate KSecret namespace secret) in
  match r with
  | Err err => Ret (Err (Base.HandleError err "create secret"))
  | Ok result => Ret (Ok (strip result))
  end.

Definition UpdateSecret (namespace : string) (secret : Secret.t) : Prog (Result Secret.t) :=
  let* r := call (ApiUpdate KSecret namespace secret) in
  match r with
  | Err err => Ret (Err (Base.HandleError err "update secret"))
  | Ok result => Ret (Ok (strip result))
  end.

Definition DeleteSecret (namespace name : string) : Prog (option error) :=
  let* r := call (ApiDelete KSecret namespace name) in
  match r with
  | Some err => Ret (Some (Base.HandleError err "delete secret"))
  | None => Ret None
  end.

End SecretAPI.

Module secretRequest.
Record t : Type := mk {
  Name : string;                            (* binding:"required" *)
  Type_ : string;
  StringData : option (gmap string string);
  Labels : option (gmap string string);
  Annotations : option (gmap string string)
}.
End secretRequest.

Module updateRequest.
Record t : Type := mk {
  StringData : option (gmap string string);
  Labels : option (gmap string string);
  Annotations : option (gmap string string)
}.
(** What the body [{}] decodes to: every field keeps its zero value. *)
Definition zero : t := mk None None None.
End updateRequest.

Module Handler.

Definition ListSecrets (c : Context) : Prog Response :=
  let namespace := Param c "namespace" in
  let* r := SecretAPI.ListSecrets namespace in
  match r with
  | Err err => Ret (serverError err)
  | Ok secrets =>
      let response :=
        map (fun secret : Secret.t =>
               VObject [("name", VString (ObjectMeta.Name (Secret.Meta secret)));
                        ("namespace", VString (ObjectMeta.Namespace (Secret.Meta secret)));
                        ("type", VString (Secret.Type_ secret));
                        ("creationTime", VTime (ObjectMeta.CreationTimestamp (Secret.Meta secret)));
                        ("labels", opt_value VStrMap (ObjectMeta.Labels (Secret.Meta secret)))])
            secrets in
      Ret (JSON StatusOK (success (slice_value response)))
  end.

Definition GetSecret (c : Context) : Prog Response :=
  let namespace := Param c "namespace" in
  let name := Param c "name" in
  let* r := SecretAPI.GetSecret namespace name in
  match r with
  | Err err => Ret (serverError err)
  | Ok secret =>
      Ret (JSON StatusOK (success (VObject
        [("name", VString (ObjectMeta.Name (Secret.Meta secret)));
         ("namespace", VString (ObjectMeta.Namespace (Secret.Meta secret)));
         ("type", VString (Secret.Type_ secret));
         ("creationTime", VTime (ObjectMeta.CreationTimestamp (Secret.Meta secret)));
         ("labels", opt_value VStrMap (ObjectMeta.Labels (Secret.Meta secret)));
         ("annotations", opt_value VStrMap (ObjectMeta.Annotations (Secret.Meta secret)))])))
  end.

Definition GetSecretKeys (c : Context) : Prog Response :=
  let namespace := Param c "namespace" in
  let name := Param c "name" in
  let* r := SecretAPI.GetSecretKeys namespace name in
  match r with
  | Err err => Ret (serverError err)
  | Ok keys => Ret (JSON StatusOK (Base.APIResponse_value keys))
  end.

Definition GetSecretUsage (c : Context) : Prog Response :=
  let namespace := Param c "namespace" in
  let name := Param c "name" in
  let* r := SecretAPI.GetSecretUsage namespace name in
  match r with
  | Err err => Ret (serverError err)
  | Ok usage => Ret (JSON StatusOK (Base.APIResponse_value usage))
  end.

Definition CreateSecret (c : Context) (b : Bind secretRequest.t) : Prog Response :=
  match b with
  | BindError err => Ret (badRequest err)
  | Bound secretRequest =>
      let namespace := Param c "namespace" in
      let type := if String.eqb (secretRequest.Type_ secretRequest) ""
                  then "Opaque" else secretRequest.Type_ secretRequest in
      let secret :=
        Secret.mk (ObjectMeta.lit (secretRequest.Name secretRequest) namespace
                                  (secretRequest.Labels secretRequest)
                                  (secretRequest.Annotations secretRequest))
                  type None (secretRequest.StringData secretRequest) in
      let* r := SecretAPI.CreateSecret namespace secret in
      match r with
      | Err err => Ret (serverError err)
      | Ok result =>
          Ret (JSON StatusCreated (success (VObject
            [("name", VString (ObjectMeta.Name (Secret.Meta result)));
             ("namespace", VString (ObjectMeta.Namespace (Secret.Meta result)));
             ("type", VString (Secret.Type_ result))])))
      end
  end.

(** [for k, v := range updateRequest.StringData { existing.Data[k] = []byte(v) }],
    into a fresh map when [existing.Data] is nil. *)
Definition overlayStringData (stringData : gmap string string)
    (data : option (gmap string (list Byte.byte))) : gmap string (list Byte.byte) :=
  map_fold (fun k v acc => <[k := bytes_of v]> acc)
           (match data with Some d => d | None => ∅ end) stringData.

Definition UpdateSecret (c : Context) (b : Bind updateRequest.t) : Prog Response :=
  match b with
  | BindError err => Ret (badRequest err)
  | Bound updateRequest =>
      let namespace := Param c "namespace" in
      let name := Param c "name" in
      let* r := SecretAPI.GetSecret namespace name in
      match r with
      | Err err => Ret (serverError err)
      | Ok existing =>
          let existing :=
            match updateRequest.StringData updateRequest with
            | Some sd => Secret.set_Data (Some (overlayStringData sd (Secret.Data existing))) existing
            | None => existing
            end in
          let existing :=
            match updateRequest.Labels updateRequest with
            | Some l => Secret.set_Meta (ObjectMeta.set_Labels (Some l) (Secret.Meta existing)) existing
            | None => existing
            end in
          let existing :=
            match updateRequest.Annotations updateRequest with
            | Some a => Secret.set_Meta (ObjectMeta.set_Annotations (Some a) (Secret.Meta existing)) existing
            | None => existing
            end in
          let* r := SecretAPI.UpdateSecret namespace existing in
          match r with
          | Err err => Ret (serverError err)
          | Ok result =>
              Ret (JSON StatusOK (success (VObject
                [("name", VString (ObjectMeta.Name (Secret.Meta result)));
                 ("namespace", VString (ObjectMeta.Namespace (Secret.Meta result)));
                 ("type", VString (Secret.Type_ result));
                 ("status", VString "updated")])))
          end
      end
  end.

Definition DeleteSecret (c : Context) : Prog Response :=
  let namespace := Param c "namespace" in
  let name := Param c "name" in
  let* r := SecretAPI.DeleteSecret namespace name in
  match r with
  | Some err => Ret (serverError err)
  | None =>
      Ret (JSON StatusOK (VObject [("success", VBool true);
                                   ("message", VString "Secret deleted successfully")]))
  end.

End Handler.

End secret.

(** ** Package configmap *)

Module configmap.

Module ConfigMapAPI.

Definition ListConfigMaps (namespace : string) : Prog (Result (list ConfigMap.t)) :=
  let* r := call (ApiList KConfigMap namespace) in
  match r with
  | Err err => Ret (Err (Base.HandleError err "list configmaps"))
  | Ok configMaps => Ret (Ok configMaps)
  end.

Definition GetConfigMap (namespace name : string) : Prog (Result ConfigMap.t) :=
  let* r := call (ApiGet KConfigMap namespace name) in
  match r with
  | Err err => Ret (Err (Base.HandleError err "get configmap"))
  | Ok configMap => Ret (Ok configMap)
  end.

Definition CreateConfigMap (namespace : string) (configMap : ConfigMap.t)
    : Prog (Result ConfigMap.t) :=
  let* r := call (ApiCreate KConfigMap namespace configMap) in
  match r with
  | Err err => Ret (Err (Base.HandleError err "create configmap"))
  | Ok result => Ret (Ok result)
  end.

Definition UpdateConfigMap (namespace : string) (configMap : ConfigMap.t)
    : Prog (Result ConfigMap.t) :=
  let* r := call (ApiUpdate KConfigMap namespace configMap) in
  match r with
  | Err err => Ret (Err (Base.HandleError err "update configmap"))
  | Ok result => Ret (Ok result)
  end.

Definition DeleteConfigMap (namespace name : string) : Prog (option error) :=
  let* r := call (ApiDelete KConfigMap namespace name) in
  match r with
  | Some err => Ret (Some (Base.HandleError err "delete configmap"))
  | None => Ret None
  end.

Definition GetConfigMapUsage (namespace name : string) : Prog (Result Base.APIResponse) :=
  let* r := call (ApiList KPod namespace) in
  match r with
  | Err err => Ret (Err (Base.HandleError err "list pods for configmap usage"))
  | Ok pods =>
      Ret (Ok (UsageScan.report Volume.ConfigMap EnvFromSource.ConfigMapRef
                 EnvVarSource.ConfigMapKeyRef name "podsUsingConfigMap" pods))
  end.

End ConfigMapAPI.

Module configMapRequest.
Record t : Type := mk {
  Name : string;                                     (* binding:"required" *)
  Data : option (gmap string string);
  BinaryData : option (gmap string (list Byte.byte));
  Labels : option (gmap string string);
  Annotations : option (gmap string string)
}.
End configMapRequest.

Module updateRequest.
Record t : Type := mk {
  Data : option (gmap string string);
  BinaryData : option (gmap string (list Byte.byte));
  Labels : option (gmap string string);
  Annotations : option (gmap string string)
}.
(** What the body [{}] decodes to. *)
Definition zero : t := mk None None None None.
End updateRequest.

Module Handler.

Definition ListConfigMaps (c : Context) : Prog Response :=
  let namespace := Param c "namespace" in
  let* r := ConfigMapAPI.ListConfigMaps namespace in
  match r with
  | Err err => Ret (serverError err)
  | Ok configMaps =>
      let response :=
        map (fun cm : ConfigMap.t =>
               VObject [("name", VString (ObjectMeta.Name (ConfigMap.Meta cm)));
                        ("namespace", VString (ObjectMeta.Namespace (ConfigMap.Meta cm)));
                        ("dataCount", VInt (map_len (ConfigMap.Data cm)));
                        ("creationTime", VTime (ObjectMeta.CreationTimestamp (ConfigMap.Meta cm)));
                        ("labels", opt_value VStrMap (ObjectMeta.Labels (ConfigMap.Meta cm)))])
            configMaps in
      Ret (JSON StatusOK (success (slice_value response)))
  end.

Definition GetConfigMap (c : Context) : Prog Response :=
  let namespace := Param c "namespace" in
  let name := Param c "name" in
  let* r := ConfigMapAPI.GetConfigMap namespace name in
  match r with
  | Err err => Ret (serverError err)
  | Ok configMap =>
      Ret (JSON StatusOK (success (VObject
        [("name", VString (ObjectMeta.Name (ConfigMap.Meta configMap)));
         ("namespace", VString (ObjectMeta.Namespace (ConfigMap.Meta configMap)));
         ("data", opt_value VStrMap (ConfigMap.Data configMap));
         ("binaryData", opt_value VBytesMap (ConfigMap.BinaryData configMap));
         ("creationTime", VTime (ObjectMeta.CreationTimestamp (ConfigMap.Meta configMap)));
         ("labels", opt_value VStrMap (ObjectMeta.Labels (ConfigMap.Meta configMap)));
         ("annotations", opt_value VStrMap (ObjectMeta.Annotations (ConfigMap.Meta configMap)))])))
  end.

Definition CreateConfigMap (c : Context) (b : Bind configMapRequest.t) : Prog Response :=
  match b with
  | BindError err => Ret (badRequest err)
  | Bound configMapRequest =>
      let namespace := Param c "namespace" in
      let configMap :=
        ConfigMap.mk (ObjectMeta.lit (configMapRequest.Name configMapRequest) namespace
                                     (configMapRequest.Labels configMapRequest)
                                     (configMapRequest.Annotations configMapRequest))
                     (configMapRequest.Data configMapRequest)
                     (configMapRequest.BinaryData configMapRequest) in
      let* r := ConfigMapAPI.CreateConfigMap namespace configMap in
      match r with
      | Err err => Ret (serverError err)
      | Ok result =>
          Ret (JSON StatusCreated (success (VObject
            [("name", VString (ObjectMeta.Name (ConfigMap.Meta result)));
             ("namespace", VString (ObjectMeta.Namespace (ConfigMap.Meta result)));
             ("dataCount", VInt (map_len (ConfigMap.Data result)))])))
      end
  end.

Definition UpdateConfigMap (c : Context) (b : Bind updateRequest.t) : Prog Response :=
  match b with
  | BindError err => Ret (badRequest err)
  | Bound updateRequest =>
      let namespace := Param c "namespace" in
      let name := Param c "name" in
      let* r := ConfigMapAPI.GetConfigMap namespace name in
      match r with
      | Err err => Ret (serverError err)
      | Ok existing =>
          let existing :=
            match updateRequest.Data updateRequest with
            | Some d => ConfigMap.set_Data (Some d) existing
            | None => existing
            end in
          let existing :=
            match updateRequest.BinaryData updateRequest with
            | Some d => ConfigMap.set_BinaryData (Some d) existing
            | None => existing
            end in
          let existing :=
            match updateRequest.Labels updateRequest with
            | Some l => ConfigMap.set_Meta (ObjectMeta.set_Labels (Some l) (ConfigMap.Meta existing)) existing
            | None => existing
            end in
          let existing :=
            match updateRequest.Annotations updateRequest with
            | Some a => ConfigMap.set_Meta (ObjectMeta.set_Annotations (Some a) (ConfigMap.Meta existing)) existing
            | None => existing
            end in
          let* r := ConfigMapAPI.UpdateConfigMap namespace existing in
          match r with
          | Err err => Ret (serverError err)
          | Ok result =>
              Ret (JSON StatusOK (success (VObject
                [("name", VString (ObjectMeta.Name (ConfigMap.Meta result)));
                 ("namespace", VString (ObjectMeta.Namespace (ConfigMap.Meta result)));
                 ("dataCount", VInt (map_len (ConfigMap.Data result)));
                 ("status", VString "updated")])))
          end
      end
  end.

Definition DeleteConfigMap (c : Context) : Prog Response :=
  let namespace := Param c "namespace" in
  let name := Param c "name" in
  let* r := ConfigMapAPI.DeleteConfigMap namespace name in
  match r with
  | Some err => Ret (serverError err)
  | None =>
      Ret (JSON StatusOK (VObject [("success", VBool true);
                                   ("message", VString "ConfigMap deleted successfully")]))
  end.

Definition GetConfigMapUsage (c : Context) : Prog Response :=
  let namespace := Param c "namespace" in
  let name := Param c "name" in
  let* r := ConfigMapAPI.GetConfigMapUsage namespace name in
  match r with
  | Err err => Ret (serverError err)
  | Ok usage => Ret (JSON StatusOK (Base.APIResponse_value usage))
  end.

End Handler.

End configmap.

(** ** Package service *)

Module service.

Module ServiceAPI.

Definition ListServices (namespace : string) : Prog (Result (list Service.t)) :=
  let* r := call (ApiList KService namespace) in
  match r with
  | Err err => Ret (Err (Base.HandleError err "list services"))
  | Ok services => Ret (Ok services)
  end.

Definition GetService (namespace name : string) : Prog (Result Service.t) :=
  let* r := call (ApiGet KService namespace name) in
  match r with
  | Err err => Ret (Err (Base.HandleError err "get service"))
  | Ok service => Ret (Ok service)
  end.

Definition CreateService (namespace : string) (service : Service.t) : Prog (Result Service.t) :=
  let* r := call (ApiCreate KService namespace service) in
  match r with
  | Err err => Ret (Err (Base.HandleError err "create service"))
  | Ok result => Ret (Ok result)
  end.

Definition UpdateService (namespace : string) (service : Service.t) : Prog (Result Service.t) :=
  let* r := call (ApiUpdate KService namespace service) in
  match r with
  | Err err => Ret (Err (Base.HandleError err "update service"))
  | Ok result => Ret (Ok result)
  end.

Definition DeleteService (namespace name : string) : Prog (option error) :=
  let* r := call (ApiDelete KService namespace name) in
  match r with
  | Some err => Ret (Some (Base.HandleError err "delete service"))
  | None => Ret None
  end.

Definition getServicePorts (ports : list ServicePort.t) : Value :=
  slice_value
    (map (fun port =>
            VObject [("name", VString (ServicePort.Name port));
                     ("protocol", VString (ServicePort.Protocol port));
                     ("port", VInt (ServicePort.Port port));
                     ("targetPort", VString (IntOrString_String (ServicePort.TargetPort port)));
                     ("nodePort", VInt (ServicePort.NodePort port))])
         ports).

Definition ObjectReference_value (r : ObjectReference.t) : Value :=
  VObject [("kind", VString (ObjectReference.Kind r));
           ("namespace", VString (ObjectReference.Namespace r));
           ("name", VString (ObjectReference.Name r))].

Definition getEndpointAddresses (endpoints : Endpoints.t) : Value :=
  slice_value
    (flat_map (fun subset =>
                 map (fun addr =>
                        VObject [("ip", VString (EndpointAddress.IP addr));
                                 ("hostname", VString (EndpointAddress.Hostname addr));
                                 ("nodeName", opt_value VString (EndpointAddress.NodeName addr));
                                 ("targetRef", opt_value ObjectReference_value
                                                 (EndpointAddress.TargetRef addr))])
                     subset)
              (Endpoints.Subsets endpoints)).

Definition ServiceTypeLoadBalancer : string := "LoadBalancer".

Definition GetServiceStatus (namespace name : string) : Prog (Result Base.APIResponse) :=
  let* r := GetService namespace name in
  match r with
  | Err err => Ret (Err err)
  | Ok service =>
      let* r := call (ApiGet KEndpoints namespace name) in
      match r with
      | Err err => Ret (Err (Base.HandleError err "get service endpoints"))
      | Ok endpoints =>
          let lbStatus :=
            if String.eqb (Service.Type_ service) ServiceTypeLoadBalancer
            then map (fun ingress =>
                        VObject [("ip", VString (LoadBalancerIngress.IP ingress));
                                 ("hostname", VString (LoadBalancerIngress.Hostname ingress))])
                     (Service.LoadBalancer service)
            else [] in
          let status :=
            VObject [("type", VString (Service.Type_ service));
                     ("clusterIP", VString (Service.ClusterIP service));
                     ("externalIPs", opt_value VStrings (Service.ExternalIPs service));
                     ("loadBalancer", slice_value lbStatus);
                     ("ports", getServicePorts (Service.Ports service));
                     ("endpoints", getEndpointAddresses endpoints);
                     ("selector", opt_value VStrMap (Service.Selector service));
                     ("sessionAffinity", VString (Service.SessionAffinity service))] in
          Ret (Ok (Base.NewSuccessResponse status))
      end
  end.

End ServiceAPI.

(** One element of [Ports] in the request bodies. *)
Module portRequest.
Record t : Type := mk {
  Name : string;
  Port : Z;        (* binding:"required" in the create request *)
  TargetPort : Z;
  NodePort : Z;
  Protocol : string
}.
End portRequest.

Module serviceRequest.
Record t : Type := mk {
  Name : string;                          (* binding:"required" *)
  Type_ : string;                         (* binding:"required" *)
  Ports : list portRequest.t;             (* binding:"required" *)
  Selector : option (gmap string string); (* binding:"required" *)
  Labels : option (gmap string string);
  ExternalIPs : option (list string)
}.
End serviceRequest.

Module updateRequest.
Record t : Type := mk {
  Ports : list portRequest.t;
  Selector : option (gmap string string);
  Labels : option (gmap string string);
  ExternalIPs : option (list string)
}.
(** What the body [{}] decodes to. *)
Definition zero : t := mk [] None None None.
End updateRequest.

Module Handler.

Definition ProtocolTCP : string := "TCP".

(** The body of the loop that builds [servicePorts], the same in
    [CreateService] and [UpdateService]. *)
Definition servicePort (p : portRequest.t) : ServicePort.t :=
  let protocol := if String.eqb (portRequest.Protocol p) ""
                  then ProtocolTCP else portRequest.Protocol p in
  let servicePort :=
    ServicePort.mk (portRequest.Name p) protocol (portRequest.Port p)
                   (FromInt (portRequest.TargetPort p)) 0 in
  if 0 <? portRequest.NodePort p
  then ServicePort.set_NodePort (portRequest.NodePort p) servicePort
  else servicePort.

Definition CreateService (c : Context) (b : Bind serviceRequest.t) : Prog Response :=
  match b with
  | BindError err => Ret (badRequest err)
  | Bound serviceRequest =>
      let namespace := Param c "namespace" in
      let servicePorts := map servicePort (serviceRequest.Ports serviceRequest) in
      let service :=
        Service.mk (ObjectMeta.lit (serviceRequest.Name serviceRequest) namespace
                                   (serviceRequest.Labels serviceRequest) None)
                   (serviceRequest.Type_ serviceRequest) ""
                   (serviceRequest.ExternalIPs serviceRequest)
                   servicePorts
                   (serviceRequest.Selector serviceRequest) "" [] in
      let* r := ServiceAPI.CreateService namespace service in
      match r with
      | Err err => Ret (serverError err)
      | Ok result =>
          Ret (JSON StatusCreated (success (VObject
            [("name", VString (ObjectMeta.Name (Service.Meta result)));
             ("namespace", VString (ObjectMeta.Namespace (Service.Meta result)));
             ("type", VString (Service.Type_ result));
             ("clusterIP", VString (Service.ClusterIP result))])))
      end
  end.

Definition UpdateService (c : Context) (b : Bind updateRequest.t) : Prog Response :=
  match b with
  | BindError err => Ret (badRequest err)
  | Bound updateRequest =>
      let namespace := Param c "namespace" in
      let name := Param c "name" in
      let* r := ServiceAPI.GetService namespace name in
      match r with
      | Err err => Ret (serverError err)
      | Ok existing =>
          let existing :=
            match updateRequest.Ports updateRequest with
            | [] => existing
            | ports => Service.set_Ports (map servicePort ports) existing
            end in
          let existing :=
            match updateRequest.Selector updateRequest with
            | Some sel => Service.set_Selector (Some sel) existing
            | None => existing
            end in
          let existing :=
            match updateRequest.Labels updateRequest with
            | Some l => Service.set_Meta (ObjectMeta.set_Labels (Some l) (Service.Meta existing)) existing
            | None => existing
            end in
          let existing :=
            match updateRequest.ExternalIPs updateRequest with
            | Some ips => Service.set_ExternalIPs (Some ips) existing
            | None => existing
            end in
          let* r := ServiceAPI.UpdateService namespace existing in
          match r with
          | Err err => Ret (serverError err)
          | Ok result =>
              Ret (JSON StatusOK (success (VObject
                [("name", VString (ObjectMeta.Name (Service.Meta result)));
                 ("namespace", VString (ObjectMeta.Namespace (Service.Meta result)));
                 ("type", VString (Service.Type_ result));
                 ("clusterIP", VString (Service.ClusterIP result));
                 ("status", VString "updated")])))
          end
      end
  end.

Definition DeleteService (c : Context) : Prog Response :=
  let namespace := Param c "namespace" in
  let name := Param c "name" in
  let* r := ServiceAPI.DeleteService namespace name in
  match r with
  | Some err => Ret (serverError err)
  | None =>
      Ret (JSON StatusOK (VObject [("success", VBool true);
                                   ("message", VString "Service deleted successfully")]))
  end.

Definition GetServiceStatus (c : Context) : Prog Response :=
  let namespace := Param c "namespace" in
  let name := Param c "name" in
  let* r := ServiceAPI.GetServiceStatus namespace name in
  match r with
  | Err err => Ret (serverError err)
  | Ok status => Ret (JSON StatusOK (Base.APIResponse_value status))
  end.

End Handler.

End service.

(** ** Package deployment *)

Module deployment.

Module DeploymentAPI.

Definition ListDeployments (namespace : string) : Prog (Result (list Deployment.t)) :=
  let* r := call (ApiList KDeployment namespace) in
  match r with
  | Err err => Ret (Err (Base.HandleError err "list deployments"))
  | Ok deployments => Ret (Ok deployments)
  end.

Definition GetDeployment (namespace name : string) : Prog (Result Deployment.t) :=
  let* r := call (ApiGet KDeployment namespace name) in
  match r with
  | Err err => Ret (Err (Base.HandleError err "get deployment"))
  | Ok deployment => Ret (Ok deployment)
  end.

Definition getDeploymentConditions (conditions : list DeploymentCondition.t) : Value :=
  slice_value
    (map (fun condition =>
            VObject [("type", VString (DeploymentCondition.Type_ condition));
                     ("status", VString (DeploymentCondition.Status condition));
                     ("lastUpdateTime", VTime (DeploymentCondition.LastUpdateTime condition));
                     ("lastTransitionTime", VTime (DeploymentCondition.LastTransitionTime condition));
                     ("reason", VString (DeploymentCondition.Reason condition));
                     ("message", VString (DeploymentCondition.Message condition))])
         conditions).

Definition GetDeploymentStatus (namespace name : string) : Prog (Result Base.APIResponse) :=
  let* r := GetDeployment namespace name in
  match r with
  | Err err => Ret (Err err)
  | Ok deployment =>
      (* *deployment.Spec.Replicas *)
      match Deployment.Replicas deployment with
      | None => Panic nilDereference
      | Some desired =>
          let status :=
            VObject [("replicas",
                      VIntMap (<["desired" := desired]>
                              (<["current" := Deployment.StatusReplicas deployment]>
                              (<["updated" := Deployment.UpdatedReplicas deployment]>
                              (<["ready" := Deployment.ReadyReplicas deployment]>
                              (<["available" := Deployment.AvailableReplicas deployment]> ∅))))));
                     ("conditions", getDeploymentConditions (Deployment.Conditions deployment));
                     ("strategy", VString (Deployment.Strategy deployment));
                     ("age", VTime (ObjectMeta.CreationTimestamp (Deployment.Meta deployment)))] in
          Ret (Ok (Base.NewSuccessResponse status))
      end
  end.

Definition DeleteDeployment (namespace name : string) : Prog (option error) :=
  let* r := call (ApiDelete KDeployment namespace name) in
  match r with
  | Some err => Ret (Some (Base.HandleError err "delete deployment"))
  | None => Ret None
  end.

Definition ScaleDeployment (namespace name : string) (replicas : Z) : Prog (option error) :=
  let* r := GetDeployment namespace name in
  match r with
  | Err err => Ret (Some err)
  | Ok deployment =>
      let deployment := Deployment.set_Replicas (Some replicas) deployment in
      let* r := call (ApiUpdate KDeployment namespace deployment) in
      match r with
      | Err err => Ret (Some (Base.HandleError err "scale deployment"))
      | Ok _ => Ret None
      end
  end.

Definition CreateDeployment (namespace : string) (deployment : Deployment.t)
    : Prog (Result Deployment.t) :=
  let* r := call (ApiCreate KDeployment namespace deployment) in
  match r with
  | Err err => Ret (Err (Base.HandleError err "create deployment"))
  | Ok result => Ret (Ok result)
  end.

Definition UpdateDeployment (namespace : string) (deployment : Deployment.t)
    : Prog (Result Deployment.t) :=
  let* r := call (ApiUpdate KDeployment namespace deployment) in
  match r with
  | Err err => Ret (Err (Base.HandleError err "update deployment"))
  | Ok result => Ret (Ok result)
  end.

End DeploymentAPI.

Module deploymentRequest.
Record t : Type := mk {
  Name : string;      (* binding:"required" *)
  Image : string;     (* binding:"required" *)
  Replicas : Z;       (* binding:"required" *)
  ContainerPort : Z;
  Labels : option (gmap string string);
  Annotations : option (gmap string string);
  EnvVars : list (gmap string string)
}.
End deploymentRequest.

Module updateRequest.
Record t : Type := mk {
  Image : string;
  Replicas : option Z;  (* a *int32 *)
  Labels : option (gmap string string);
  Annotations : option (gmap string string);
  EnvVars : list (gmap string string)
}.
(** What the body [{}] decodes to. *)
Definition zero : t := mk "" None None None [].
End updateRequest.

Module Handler.

(** [m[k]] on a [map[string]string]: the empty string for an absent key. *)
Definition index (m : gmap string string) (k : string) : string :=
  match m !! k with Some v => v | None => "" end.

(** [corev1.EnvVar{Name: env["name"], Value: env["value"]}] for each entry. *)
Definition envVars (l : list (gmap string string)) : list EnvVar.t :=
  map (fun env => EnvVar.mk (index env "name") (index env "value") None) l.

(** An assignment to a field of [existing.Spec.Template.Spec.Containers[0]]:
    the index expression panics on an empty slice. *)
Definition updateFirstContainer (f : Container.t -> Container.t) (d : Deployment.t)
    : Prog Deployment.t :=
  match Deployment.Containers d with
  | [] => Panic "runtime error: index out of range [0] with length 0"
  | c0 :: rest => Ret (Deployment.set_Containers (f c0 :: rest) d)
  end.

Definition CreateDeployment (c : Context) (b : Bind deploymentRequest.t) : Prog Response :=
  match b with
  | BindError err => Ret (badRequest err)
  | Bound deploymentRequest =>
      let namespace := Param c "namespace" in
      let app : gmap string string := {["app" := deploymentRequest.Name deploymentRequest]} in
      let container :=
        Container.mk (deploymentRequest.Name deploymentRequest)
                     (deploymentRequest.Image deploymentRequest)
                     [deploymentRequest.ContainerPort deploymentRequest] [] [] in
      let container :=
        match deploymentRequest.EnvVars deploymentRequest with
        | [] => container
        | l => Container.set_Env (envVars l) container
        end in
      let deployment :=
        Deployment.mk (ObjectMeta.lit (deploymentRequest.Name deploymentRequest) namespace
                                      (deploymentRequest.Labels deploymentRequest)
                                      (deploymentRequest.Annotations deploymentRequest))
                      (Some (deploymentRequest.Replicas deploymentRequest))
                      (Some app) (Some app) [container] "" 0 0 0 0 [] in
      let* r := DeploymentAPI.CreateDeployment namespace deployment in
      match r with
      | Err err => Ret (serverError err)
      | Ok result =>
          Ret (JSON StatusCreated (success (VObject
            [("name", VString (ObjectMeta.Name (Deployment.Meta result)));
             ("namespace", VString (ObjectMeta.Namespace (Deployment.Meta result)));
             ("status", VString "created")])))
      end
  end.

Definition UpdateDeployment (c : Context) (b : Bind updateRequest.t) : Prog Response :=
  match b with
  | BindError err => Ret (badRequest err)
  | Bound updateRequest =>
      let namespace := Param c "namespace" in
      let name := Param c "name" in
      let* r := DeploymentAPI.GetDeployment namespace name in
      match r with
      | Err err => Ret (serverError err)
      | Ok existing =>
          let* existing :=
            if String.eqb (updateRequest.Image updateRequest) ""
            then Ret existing
            else updateFirstContainer
                   (Container.set_Image (updateRequest.Image updateRequest)) existing in
          let existing :=
            match updateRequest.Replicas updateRequest with
            | Some n => Deployment.set_Replicas (Some n) existing
            | None => existing
            end in
          let existing :=
            match updateRequest.Labels updateRequest with
            | Some l => Deployment.set_Meta (ObjectMeta.set_Labels (Some l) (Deployment.Meta existing)) existing
            | None => existing
            end in
          let existing :=
            match updateRequest.Annotations updateRequest with
            | Some a => Deployment.set_Meta (ObjectMeta.set_Annotations (Some a) (Deployment.Meta existing)) existing
            | None => existing
            end in
          let* existing :=
            match updateRequest.EnvVars updateRequest with
            | [] => Ret existing
            | l => updateFirstContainer (Container.set_Env (envVars l)) existing
            end in
          let* r := DeploymentAPI.UpdateDeployment namespace existing in
          match r with
          | Err err => Ret (serverError err)
          | Ok result =>
              Ret (JSON StatusOK (success (VObject
                [("name", VString (ObjectMeta.Name (Deployment.Meta result)));
                 ("namespace", VString (ObjectMeta.Namespace (Deployment.Meta result)));
                 ("status", VString "updated")])))
          end
      end
  end.

Definition GetDeploymentStatus (c : Context) : Prog Response :=
  let namespace := Param c "namespace" in
  let name := Param c "name" in
  let* r := DeploymentAPI.GetDeploymentStatus namespace name in
  match r with
  | Err err => Ret (serverError err)
  | Ok status => Ret (JSON StatusOK (Base.APIResponse_value status))
  end.

Definition DeleteDeployment (c : Context) : Prog Response :=
  let namespace := Param c "namespace" in
  let name := Param c "name" in
  let* r := DeploymentAPI.DeleteDeployment namespace name in
  match r with
  | Some err => Ret (serverError err)
  | None =>
      Ret (JSON StatusOK (VObject [("success", VBool true);
                                   ("message", VString "Deployment deleted successfully")]))
  end.

End Handler.

End deployment.

(** ** Package ingress *)

Module ingress.

Module IngressAPI.

Definition GetIngress (namespace name : string) : Prog (Result Ingress.t) :=
  let* r := call (ApiGet KIngress namespace name) in
  match r with
  | Err err => Ret (Err (Base.HandleError err "get ingress"))
  | Ok ingress => Ret (Ok ingress)
  end.

Definition CreateIngress (namespace : string) (ingress : Ingress.t) : Prog (Result Ingress.t) :=
  let* r := call (ApiCreate KIngress namespace ingress) in
  match r with
  | Err err => Ret (Err (Base.HandleError err "create ingress"))
  | Ok result => Ret (Ok result)
  end.

Definition UpdateIngress (namespace : string) (ingress : Ingress.t) : Prog (Result Ingress.t) :=
  let* r := call (ApiUpdate KIngress namespace ingress) in
  match r with
  | Err err => Ret (Err (Base.HandleError err "update ingress"))
  | Ok result => Ret (Ok result)
  end.

Definition DeleteIngress (namespace name : string) : Prog (option error) :=
  let* r := call (ApiDelete KIngress namespace name) in
  match r with
  | Some err => Ret (Some (Base.HandleError err "delete ingress"))
  | None => Ret None
  end.

(** [networkingv1.ServiceBackendPort] under its [omitempty] tags. *)
Definition ServiceBackendPort_value (p : ServiceBackendPort.t) : Value :=
  VObject ((if String.eqb (ServiceBackendPort.Name p) "" then []
            else [("name", VString (ServiceBackendPort.Name p))])
           ++ (if ServiceBackendPort.Number p =? 0 then []
               else [("number", VInt (ServiceBackendPort.Number p))])).

(** One element of [paths]; [None] when [path.Backend.Service] is nil, where
    the field selection panics. *)
Definition ingressPath (path : HTTPIngressPath.t) : option Value :=
  match HTTPIngressPath.Service path with
  | None => None
  | Some (name, port) =>
      Some (VObject [("path", VString (HTTPIngressPath.Path path));
                     ("pathType", opt_value VString (HTTPIngressPath.PathType path));
                     ("backend",
                      VObject [("service",
                                VObject [("name", VString name);
                                         ("port", ServiceBackendPort_value port)])])])
  end.

Definition ingressRule (rule : IngressRule.t) : option Value :=
  paths ← match IngressRule.HTTP rule with
          | Some l => mapM ingressPath l
          | None => Some []
          end;
  Some (VObject [("host", VString (IngressRule.Host rule));
                 ("paths", VArray paths)]).

(** [None]: the run panics on a nil service backend. *)
Definition getIngressRules (rules : list IngressRule.t) : option Value :=
  slice_value <$> mapM ingressRule rules.

Definition ListIngresses (namespace : string) : Prog (Result (list Ingress.t)) :=
  let* r := call (ApiList KIngress namespace) in
  match r with
  | Err err => Ret (Err (Base.HandleError err "list ingresses"))
  | Ok ingresses => Ret (Ok ingresses)
  end.

Definition getLoadBalancerStatus (status : list LoadBalancerIngress.t) : Value :=
  slice_value
    (map (fun ingress =>
            VObject [("ip", VString (LoadBalancerIngress.IP ingress));
                     ("hostname", VString (LoadBalancerIngress.Hostname ingress))])
         status).

Definition getTLSStatus (tls : list IngressTLS.t) : Value :=
  slice_value
    (map (fun t =>
            VObject [("hosts", opt_value VStrings (IngressTLS.Hosts t));
                     ("secretName", VString (IngressTLS.SecretName t))])
         tls).

Definition GetIngressStatus (namespace name : string) : Prog (Result Base.APIResponse) :=
  let* r := GetIngress namespace name in
  match r with
  | Err err => Ret (Err err)
  | Ok ingress =>
      match getIngressRules (Ingress.Rules ingress) with
      | None => Panic nilDereference
      | Some rules =>
          let status :=
            VObject [("loadBalancer", getLoadBalancerStatus (Ingress.LoadBalancer ingress));
                     ("rules", rules);
                     ("tls", getTLSStatus (Ingress.TLS ingress));
                     ("class", opt_value VString (Ingress.IngressClassName ingress));
                     ("annotations",
                      opt_value VStrMap (ObjectMeta.Annotations (Ingress.Meta ingress)))] in
          Ret (Ok (Base.NewSuccessResponse status))
      end
  end.

End IngressAPI.

Module pathRequest.
Record t : Type := mk {
  Path : string;
  PathType : string;
  ServiceName : string;
  ServicePort : Z
}.
End pathRequest.

Module ruleRequest.
Record t : Type := mk {
  Host : string;
  Paths : list pathRequest.t
}.
End ruleRequest.

Module tlsRequest.
Record t : Type := mk {
  Hosts : option (list string);
  SecretName : string
}.
End tlsRequest.

Module ingressRequest.
Record t : Type := mk {
  Name : string;                (* binding:"required" *)
  ClassName : string;
  Rules : list ruleRequest.t;   (* binding:"required", as each path field *)
  TLS : list tlsRequest.t;
  Annotations : option (gmap string string);
  Labels : option (gmap string string)
}.
End ingressRequest.

Module updateRequest.
Record t : Type := mk {
  ClassName : string;
  Rules : list ruleRequest.t;
  TLS : list tlsRequest.t;
  Annotations : option (gmap string string);
  Labels : option (gmap string string)
}.
(** What the body [{}] decodes to. *)
Definition zero : t := mk "" [] [] None None.
End updateRequest.

Module Handler.

(** The loops that build [rules] and [tls], the same in [CreateIngress]
    and [UpdateIngress]. *)
Definition ingressRules (rules : list ruleRequest.t) : list IngressRule.t :=
  map (fun rule =>
         let paths :=
           map (fun path =>
                  HTTPIngressPath.mk (pathRequest.Path path)
                    (Some (pathRequest.PathType path))
                    (Some (pathRequest.ServiceName path,
                           ServiceBackendPort.mk "" (pathRequest.ServicePort path))))
               (ruleRequest.Paths rule) in
         IngressRule.mk (ruleRequest.Host rule) (Some paths))
      rules.

Definition ingressTLS (tls : list tlsRequest.t) : list IngressTLS.t :=
  map (fun t => IngressTLS.mk (tlsRequest.Hosts t) (tlsRequest.SecretName t)) tls.

(** The response rows, or the panic of [getIngressRules]. *)
Definition withRules (rules : list IngressRule.t) (k : Value -> Response) : Prog Response :=
  match IngressAPI.getIngressRules rules with
  | Some v => Ret (k v)
  | None => Panic nilDereference
  end.

Definition CreateIngress (c : Context) (b : Bind ingressRequest.t) : Prog Response :=
  match b with
  | BindError err => Ret (badRequest err)
  | Bound ingressRequest =>
      let namespace := Param c "namespace" in
      let rules := ingressRules (ingressRequest.Rules ingressRequest) in
      let tls := ingressTLS (ingressRequest.TLS ingressRequest) in
      let ingress :=
        Ingress.mk (ObjectMeta.lit (ingressRequest.Name ingressRequest) namespace
                                   (ingressRequest.Labels ingressRequest)
                                   (ingressRequest.Annotations ingressRequest))
                   (Some (ingressRequest.ClassName ingressRequest)) rules tls [] in
      let* r := IngressAPI.CreateIngress namespace ingress in
      match r with
      | Err err => Ret (serverError err)
      | Ok result =>
          withRules (Ingress.Rules result) (fun rows =>
            JSON StatusCreated (success (VObject
              [("name", VString (ObjectMeta.Name (Ingress.Meta result)));
               ("namespace", VString (ObjectMeta.Namespace (Ingress.Meta result)));
               ("className", opt_value VString (Ingress.IngressClassName result));
               ("rules", rows)])))
      end
  end.

Definition UpdateIngress (c : Context) (b : Bind updateRequest.t) : Prog Response :=
  match b with
  | BindError err => Ret (badRequest err)
  | Bound updateRequest =>
      let namespace := Param c "namespace" in
      let name := Param c "name" in
      let* r := IngressAPI.GetIngress namespace name in
      match r with
      | Err err => Ret (serverError err)
      | Ok existing =>
          let existing :=
            if String.eqb (updateRequest.ClassName updateRequest) ""
            then existing
            else Ingress.set_IngressClassName (Some (updateRequest.ClassName updateRequest)) existing in
          let existing :=
            match updateRequest.Rules updateRequest with
            | [] => existing
            | rules => Ingress.set_Rules (ingressRules rules) existing
            end in
          let existing :=
            match updateRequest.TLS updateRequest with
            | [] => existing
            | tls => Ingress.set_TLS (ingressTLS tls) existing
            end in
          let existing :=
            match updateRequest.Labels updateRequest with
            | Some l => Ingress.set_Meta (ObjectMeta.set_Labels (Some l) (Ingress.Meta existing)) existing
            | None => existing
            end in
          let existing :=
            match updateRequest.Annotations updateRequest with
            | Some a => Ingress.set_Meta (ObjectMeta.set_Annotations (Some a) (Ingress.Meta existing)) existing
            | None => existing
            end in
          let* r := IngressAPI.UpdateIngress namespace existing in
          match r with
          | Err err => Ret (serverError err)
          | Ok result =>
              withRules (Ingress.Rules result) (fun rows =>
                JSON StatusOK (success (VObject
                  [("name", VString (ObjectMeta.Name (Ingress.Meta result)));
                   ("namespace", VString (ObjectMeta.Namespace (Ingress.Meta result)));
                   ("className", opt_value VString (Ingress.IngressClassName result));
                   ("rules", rows);
                   ("status", VString "updated")])))
          end
      end
  end.

Definition DeleteIngress (c : Context) : Prog Response :=
  let namespace := Param c "namespace" in
  let name := Param c "name" in
  let* r := IngressAPI.DeleteIngress namespace name in
  match r with
  | Some err => Ret (serverError err)
  | None =>
      Ret (JSON StatusOK (VObject [("success", VBool true);
                                   ("message", VString "Ingress deleted successfully")]))
  end.

Definition getTLSConfig (tls : list IngressTLS.t) : Value :=
  slice_value
    (map (fun t =>
            VObject [("hosts", opt_value VStrings (IngressTLS.Hosts t));
                     ("secretName", VString (IngressTLS.SecretName t))])
         tls).

(** One row of the list response; [None] where [getIngressRules] panics. *)
Definition listRow (ing : Ingress.t) : option Value :=
  rules ← IngressAPI.getIngressRules (Ingress.Rules ing);
  Some (VObject [("name", VString (ObjectMeta.Name (Ingress.Meta ing)));
                 ("namespace", VString (ObjectMeta.Namespace (Ingress.Meta ing)));
                 ("className", opt_value VString (Ingress.IngressClassName ing));
                 ("rules", rules);
                 ("creationTime", VTime (ObjectMeta.CreationTimestamp (Ingress.Meta ing)));
                 ("labels", opt_value VStrMap (ObjectMeta.Labels (Ingress.Meta ing)))]).

Definition ListIngresses (c : Context) : Prog Response :=
  let namespace := Param c "namespace" in
  let* r := IngressAPI.ListIngresses namespace in
  match r with
  | Err err => Ret (serverError err)
  | Ok ingresses =>
      match mapM listRow ingresses with
      | None => Panic nilDereference
      | Some response => Ret (JSON StatusOK (success (slice_value response)))
      end
  end.

Definition GetIngress (c : Context) : Prog Response :=
  let namespace := Param c "namespace" in
  let name := Param c "name" in
  let* r := IngressAPI.GetIngress namespace name in
  match r with
  | Err err => Ret (serverError err)
  | Ok ingress =>
      withRules (Ingress.Rules ingress) (fun rows =>
        JSON StatusOK (success (VObject
          [("name", VString (ObjectMeta.Name (Ingress.Meta ingress)));
           ("namespace", VString (ObjectMeta.Namespace (Ingress.Meta ingress)));
           ("className", opt_value VString (Ingress.IngressClassName ingress));
           ("rules", rows);
           ("tls", getTLSConfig (Ingress.TLS ingress));
           ("creationTime", VTime (ObjectMeta.CreationTimestamp (Ingress.Meta ingress)));
           ("labels", opt_value VStrMap (ObjectMeta.Labels (Ingress.Meta ingress)));
           ("annotations", opt_value VStrMap (ObjectMeta.Annotations (Ingress.Meta ingress)))])))
  end.

Definition GetIngressStatus (c : Context) : Prog Response :=
  let namespace := Param c "namespace" in
  let name := Param c "name" in
  let* r := IngressAPI.GetIngressStatus namespace name in
  match r with
  | Err err => Ret (serverError err)
  | Ok status => Ret (JSON StatusOK (Base.APIResponse_value status))
  end.

End Handler.

End ingress.

(** ** Package pod (the delete path) *)

Module pod.

Module PodAPI.

Definition DeletePod (namespace name : string) : Prog (option error) :=
  let* r := call (ApiDelete KPod namespace name) in
  match r with
  | Some err => Ret (Some (Base.HandleError err "delete pod"))
  | None => Ret None
  end.

End PodAPI.

Module Handler.

Definition DeletePod (c : Context) : Prog Response :=
  let namespace := Param c "namespace" in
  let name := Param c "name" in
  let* r := PodAPI.DeletePod namespace name in
  match r with
  | Some err => Ret (serverError err)
  | None =>
      Ret (JSON StatusOK (VObject [("success", VBool true);
                                   ("message", VString "Pod deleted successfully")]))
  end.

End Handler.

End pod.

(** ** Package namespace (the metrics report) *)

Module namespace.

Module NamespaceAPI.

(** [metrics["status"].(map[string]int)[string(pod.Status.Phase)]++] *)
Definition increment (key : string) (m : gmap string Z) : gmap string Z :=
  <[key := match m !! key with Some n => n + 1 | None => 0 + 1 end]> m.

Definition seededStatus : gmap string Z :=
  <["running" := 0]> (<["pending" := 0]> (<["failed" := 0]> (<["succeeded" := 0]> ∅))).

Definition countByStatus (pods : list Pod.t) : gmap string Z :=
  fold_left (fun status pod => increment (Pod.Phase pod) status) pods seededStatus.

Definition GetNamespaceMetrics (name : string) : Prog (Result Base.APIResponse) :=
  let* r := call (ApiList KPod name) in
  match r with
  | Err err => Ret (Err (Base.HandleError err "get namespace metrics"))
  | Ok pods =>
      let metrics :=
        VObject [("podCount", VInt (Z.of_nat (length pods)));
                 ("status", VIntMap (countByStatus pods))] in
      Ret (Ok (Base.NewSuccessResponse metrics))
  end.

End NamespaceAPI.

Module Handler.

Definition GetNamespaceMetrics (c : Context) : Prog Response :=
  let name := Param c "name" in
  let* r := NamespaceAPI.GetNamespaceMetrics name in
  match r with
  | Err err => Ret (serverError err)
  | Ok metrics => Ret (JSON StatusOK (Base.APIResponse_value metrics))
  end.

End Handler.

End namespace.

(** ** Package kubernetes: the client adapter

    The repository carries two versions of [NewClient]: one built from the
    host and bearer token of the environment, one from a kubeconfig file. *)

Module kubernetes.

Record Client : Type := mkClient {
  Clientset_ : Clientset
}.

Definition IsHealthy (c : Client) : Prog (option error) :=
  let* r := call (ServerVersion (Clientset_ c)) in
  match r with
  | Err err => Ret (Some (ErrorString ("failed to connect to Kubernetes API: " +:+ Error err)))
  | Ok version => Ret None
  end.

(** The part after the configuration is known, the same in both versions. *)
Definition connect (config : RestConfig.t) : Prog (Result Client) :=
  let* r := call (NewForConfig config) in
  match r with
  | Err err => Ret (Err (ErrorString ("failed to create client: " +:+ Error err)))
  | Ok clientset =>
      let client := mkClient clientset in
      let* h := IsHealthy client in
      match h with
      | Some err => Ret (Err (ErrorString ("failed health check: " +:+ Error err)))
      | None => Ret (Ok client)
      end
  end.

Module token.

Definition NewClient (kubeconfigPath : string) : Prog (Result Client) :=
  let* k8sHost := call (Getenv "K8S_HOST") in
  let* k8sToken := call (Getenv "K8S_TOKEN") in
  if String.eqb k8sHost ""
  then Ret (Err (ErrorString "K8S_HOST environment variable is required"))
  else if String.eqb k8sToken ""
  then Ret (Err (ErrorString "K8S_TOKEN environment variable is required"))
  else connect (RestConfig.mk k8sHost k8sToken true).

End token.

Module kubeconfig.

Definition NewClient (kubeconfigPath : string) : Prog (Result Client) :=
  let* server := call (Getenv "K8S_HOST") in
  let* r := call (ClientConfig kubeconfigPath server) in
  match r with
  | Err err => Ret (Err (ErrorString ("failed to get client config: " +:+ Error err)))
  | Ok config => connect config
  end.

End kubeconfig.

End kubernetes.

(** ** Package config *)

Module config.

Record Config : Type := mkConfig {
  ServerAddress : string;
  KubeConfig : string;
  LogLevel : string;
  Environment : string;
  K8sHost : string
}.

Definition getEnv (key defaultValue : string) : Prog string :=
  let* v := call (LookupEnv key) in
  match v with
  | Some value => Ret value
  | None => Ret defaultValue
  end.

Definition Load : Prog (Result Config) :=
  let* _ := call DotenvLoad in
  let* kubeconfig := call (Getenv "KUBECONFIG") in
  let* kubeconfig :=
    (if String.eqb kubeconfig ""
     then
       let* r := call UserHomeDir in
       match r with
       | Err err => Ret (Err (ErrorString ("failed to get user home directory: " +:+ Error err)))
       | Ok userHome =>
           let* p := call (PathJoin [userHome; ".kube"; "config"]) in Ret (Ok (p : string))
       end
     else Ret (Ok kubeconfig)) : Prog (Result string) in
  match kubeconfig with
  | Err err => Ret (Err err)
  | Ok kubeconfig =>
      let* kubeconfig := call (PathClean kubeconfig) in
      let* st := call (Stat kubeconfig) in
      match st with
      | Some (err, true) =>
          Ret (Err (ErrorString ("kubeconfig file not found at " +:+ kubeconfig +:+
                                 ": " +:+ Error err)))
      | _ =>
          let* serverAddress := getEnv "SERVER_ADDRESS" ":8080" in
          let* logLevel := getEnv "LOG_LEVEL" "info" in
          let* environment := getEnv "ENV" "development" in
          let* k8sHost := getEnv "K8S_HOST" "http://localhost:9000" in
          Ret (Ok (mkConfig serverAddress kubeconfig logLevel environment k8sHost))
      end
  end.

End config.

(** ** Package main: the router and the start-up sequence *)

Module main.








(** [main], over the version of [NewClient] that is linked in.  The serving
    goroutine is the call [ListenAndServe]; what happens inside it runs
    beside [main] and is not part of this sequence. *)
Definition main (NewClient : string -> Prog (Result kubernetes.Client)) : Prog unit :=
  let* r := config.Load in
  match r with
  | Err err => Fatal ("Failed to load configuration: " +:+ Error err)
  | Ok cfg =>
      let* r := NewClient (config.KubeConfig cfg) in
      match r with
      | Err err => Fatal ("Failed to create Kubernetes client: " +:+ Error err)
      | Ok k8sClient =>
          let* _ := call (ListenAndServe (config.ServerAddress cfg)) in
          let* _ := call WaitSignal in
          let* r := call Shutdown in
          match r with
          | Some err => Fatal ("Server forced to shutdown: " +:+ Error err)
          | None => Ret tt
          end
      end
  end.

End main.

(** ** Environments used to state and to exercise the properties *)

(** An environment without state: the same answer to the same call. *)
Definition scripted (answer : forall c : Call, Resp c) : Env unit :=
  fun c s => (answer c, s).

(** A remote API that is out of reach, in a process without settings. *)
Definition unreachable (c : Call) : Resp c :=
  match c with
  | ApiList _ _ => Err (ErrorString "connection refused")
  | ApiGet _ _ _ => Err (ErrorString "connection refused")
  | ApiCreate _ _ _ => Err (ErrorString "connection refused")
  | ApiUpdate _ _ _ => Err (ErrorString "connection refused")
  | ApiDelete _ _ _ => Some (ErrorString "connection refused")
  | ServerVersion _ => Err (ErrorString "connection refused")
  | NewForConfig cfg => Ok (mkClientset cfg)
  | ClientConfig _ _ => Err (ErrorString "invalid configuration")
  | Getenv _ => ""
  | LookupEnv _ => None
  | DotenvLoad => None
  | UserHomeDir => Ok "/root"
  | PathJoin parts => String.concat "/" parts
  | PathClean p => p
  | Stat _ => None
  | ListenAndServe _ => tt
  | WaitSignal => tt
  | Shutdown => None
  end.

Definition map_result {A B : Type} (f : A -> B) (r : Result A) : Result B :=
  match r with
  | Ok a => Ok (f a)
  | Err e => Err e
  end.

(** The secret with its value payloads removed. *)
Definition without_values (s : Secret.t) : Secret.t :=
  Secret.mk (Secret.Meta s) (Secret.Type_ s) None None.

(** The same world, except that every secret it shows has no values. *)
Definition hide_secret_values {S : Type} (env : Env S) : Env S :=
  fun c =>
    match c as c0 return S -> Resp c0 * S with
    | ApiList KSecret ns =>
        fun s => let '(r, s') := env (ApiList KSecret ns) s in
                 (map_result (map without_values) r, s')
    | ApiGet KSecret ns name =>
        fun s => let '(r, s') := env (ApiGet KSecret ns name) s in
                 (map_result without_values r, s')
    | c0 => env c0
    end.

(** The config object with every value replaced by the empty string and no
    binary values: the keys and their number stay. *)
Definition blank_values (c : ConfigMap.t) : ConfigMap.t :=
  ConfigMap.mk (ConfigMap.Meta c)
               ((fun m : gmap string string => (fun _ => "") <$> m) <$> ConfigMap.Data c)
               None.

Definition hide_configmap_values {S : Type} (env : Env S) : Env S :=
  fun c =>
    match c as c0 return S -> Resp c0 * S with
    | ApiList KConfigMap ns =>
        fun s => let '(r, s') := env (ApiList KConfigMap ns) s in
                 (map_result (map blank_values) r, s')
    | c0 => env c0
    end.

Definition no_values (s : Secret.t) : Prop :=
  Secret.Data s = None /\ Secret.StringData s = None.

(** What holds of the value a run returns without an error; the run is not
    allowed to panic or to exit. *)
Definition on_success {A S : Type} (r : Run (Result A) S) (P : A -> Prop) : Prop :=
  match outcome r with
  | Returned (Ok a) => P a
  | Returned (Err _) => True
  | _ => False
  end.

(** A config object with one entry, and a remote API that serves it. *)
Definition sample_configmap : ConfigMap.t :=
  ConfigMap.mk (ObjectMeta.mk "app-config" "default" None None 0 "41")
               (Some {["database.url" := "postgres://db:5432"]}) None.

Definition serves_configmap : Env unit :=
  scripted (fun c =>
              match c as c0 return Resp c0 with
              | ApiGet KConfigMap _ _ => Ok sample_configmap
              | c0 => unreachable c0
              end).

(** The body a run wrote, [VNull] if it wrote none. *)
Definition written {S : Type} (r : Run Response S) : Value :=
  match outcome r with
  | Returned resp => body resp
  | _ => VNull
  end.

(** A context that binds the route parameters [:namespace] and [:name]. *)
Definition context (namespace name : string) : Context :=
  mkContext (fun p => if String.eqb p "namespace" then namespace
                      else if String.eqb p "name" then name else "")
            (fun _ => "").

(** A secret with one value, and a remote API that serves it and accepts
    whatever update it is sent. *)
Definition sample_secret : Secret.t :=
  Secret.mk (ObjectMeta.mk "app-credentials" "default" None None 0 "17")
            "Opaque" (Some {["password" := bytes_of "hunter2"]}) None.

Definition serves_secret : Env unit :=
  scripted (fun c =>
              match c as c0 return Resp c0 with
              | ApiGet KSecret _ _ => Ok sample_secret
              | ApiUpdate KSecret _ obj => Ok obj
              | c0 => unreachable c0
              end).

(** The calls of an update handler that read the current object and send
    [sent] back, or stop after a failed read. *)
Definition resubmits {S : Type} (k : Kind) (env : Env S) (s : S) (ns name : string)
    (sent : Obj k -> Obj k) (issued : list Call) : Prop :=
  match fst (env (ApiGet k ns name) s) with
  | Ok current => issued = [ApiGet k ns name; ApiUpdate k ns (sent current)]
  | Err _ => issued = [ApiGet k ns name]
  end.

(** *** What a usage report has to say

    Stated from the pod alone, without the loop: the three places where a
    pod can name the target, and the evidence each contributes. *)

Section UsageSpec.

Variable volumeRef : Volume.t -> option string.
Variable envFromRef : EnvFromSource.t -> option string.
Variable keyRef : EnvVarSource.t -> option string.
Variable target : string.


Definition viaVolume (v : Volume.t) : Prop := volumeRef v = Some target.
Definition viaEnvFrom (e : EnvFromSource.t) : Prop := envFromRef e = Some target.
Definition viaEnvVar (e : EnvVar.t) : Prop := EnvVar.ValueFrom e ≫= keyRef = Some target.

#[global] Instance viaVolume_dec (v : Volume.t) : Decision (viaVolume v).
Proof. unfold viaVolume. apply _. Defined.

#[global] Instance viaEnvFrom_dec (e : EnvFromSource.t) : Decision (viaEnvFrom e).
Proof. unfold viaEnvFrom. apply _. Defined.

#[global] Instance viaEnvVar_dec (e : EnvVar.t) : Decision (viaEnvVar e).
Proof. unfold viaEnvVar. apply _. Defined.

Definition references (p : Pod.t) : Prop :=
  Exists viaVolume (Pod.Volumes p) \/
  Exists (fun c => Exists viaEnvFrom (Container.EnvFrom c)) (Pod.Containers p) \/
  Exists (fun c => Exists viaEnvVar (Container.Env c)) (Pod.Containers p).







Definition inUse (p : Pod.t) : Prop :=
  UsageScan.isUsed (UsageScan.scanPod volumeRef envFromRef keyRef target p) = true.

#[global] Instance inUse_dec (p : Pod.t) : Decision (inUse p).
Proof. unfold inUse. apply _. Defined.



End UsageSpec.

(** Two pods of one namespace: [web] mounts the config object [app-config],
    imports it in bulk and reads one key of it; [worker] names nothing. *)
Definition web_pod : Pod.t :=
  Pod.mk (ObjectMeta.mk "web" "default" None None 0 "5")
         [Volume.mk "config-volume" (Some "app-config") None;
          Volume.mk "scratch" None None]
         [Container.mk "nginx" "nginx:1.25" [80]
            [EnvFromSource.mk (Some "app-config") None]
            [EnvVar.mk "DATABASE_URL" "" (Some (EnvVarSource.mk (Some "app-config") None));
             EnvVar.mk "MODE" "production" None]]
         "Running".

Definition worker_pod : Pod.t :=
  Pod.mk (ObjectMeta.mk "worker" "default" None None 0 "6") [] 
         [Container.mk "worker" "worker:2" [] [] []] "Pending".





Definition dquote : string := String (Ascii.ascii_of_nat 34) EmptyString.

(** What the remote API answers for a config object that does not exist. *)
Definition configmap_not_found (name : string) : Status.t :=
  Status.mk ("configmaps " +:+ dquote +:+ name +:+ dquote +:+ " not found") 404 "NotFound".

Definition nothing_stored : Env unit :=
  scripted (fun c =>
              match c as c0 return Resp c0 with
              | ApiDelete KConfigMap _ name => Some (StatusError (configmap_not_found name))
              | c0 => unreachable c0
              end).

(** *** Reading the route table *)





(** *** The service scenario *)

(** The services a run asked the remote API to create. *)
Definition services_created (l : list Call) : list Service.t :=
  omap (fun c => match c with
                 | ApiCreate KService _ obj => Some obj
                 | _ => None
                 end) l.

(** The row of the status report that shows a port mapping of a request:
    the protocol defaults to TCP, the target port is printed in decimal, a
    node port that is not positive is left at zero. *)
Definition port_row (p : service.portRequest.t) : Value :=
  VObject [("name", VString (service.portRequest.Name p));
           ("protocol", VString (if String.eqb (service.portRequest.Protocol p) ""
                                 then "TCP" else service.portRequest.Protocol p));
           ("port", VInt (service.portRequest.Port p));
           ("targetPort", VString (itoa (service.portRequest.TargetPort p)));
           ("nodePort", VInt (if 0 <? service.portRequest.NodePort p
                              then service.portRequest.NodePort p else 0))].

(** A remote API that keeps the one service it was asked to create, assigns
    it a cluster address, and has endpoints without any address for it. *)
Definition one_service_cluster : Env (option Service.t) :=
  fun c =>
    match c as c0 return option Service.t -> Resp c0 * option Service.t with
    | ApiCreate KService ns obj =>
        fun st =>
          let stored :=
            Service.mk (Service.Meta obj) (Service.Type_ obj) "10.96.0.17"
                       (Service.ExternalIPs obj) (Service.Ports obj) (Service.Selector obj)
                       "None" [] in
          (Ok stored, Some stored)
    | ApiGet KService ns name =>
        fun st => (match st with
                   | Some svc => Ok svc
                   | None => Err (ErrorString "not found")
                   end, st)
    | ApiGet KEndpoints ns name =>
        fun st => (Ok (Endpoints.mk (ObjectMeta.mk name ns None None 0 "") []), st)
    | c0 => fun st => (unreachable c0, st)
    end.

(** The request of the scenario: one port mapping, a selector of two entries. *)
Definition nginx_service_request : service.serviceRequest.t :=
  service.serviceRequest.mk "nginx-service" "ClusterIP"
    [service.portRequest.mk "http" 80 8080 0 "TCP"]
    (Some (<["app" := "nginx"]> (<["tier" := "web"]> ∅)))
    None None.

(** The run that starts with the call [ev] and goes on as [r]. *)
Definition prepend {R S : Type} (ev : Event) (r : Run R S) : Run R S :=
  mkRun (ev :: trace r) (outcome r) (final r).

(** *** Reading the trace of a start-up *)

(** The liveness probe was answered with a server version. *)
Definition is_live_probe (ev : Event) : bool :=
  match ev with
  | existT c x =>
      match c as c0 return Resp c0 -> bool with
      | ServerVersion _ => fun x => match x with Ok _ => true | Err _ => false end
      | _ => fun _ => false
      end x
  end.


Definition is_serve (c : Call) : bool :=
  match c with ListenAndServe _ => true | _ => false end.



Definition probe_succeeded {R S : Type} (r : Run R S) : bool :=
  existsb is_live_probe (trace r).


Definition server_started {R S : Type} (r : Run R S) : bool :=
  existsb is_serve (calls r).







(** A process with both settings, before a cluster that answers the probe. *)
Definition healthy_cluster : Env unit :=
  scripted (fun c =>
              match c as c0 return Resp c0 with
              | Getenv "K8S_HOST" => "https://10.0.0.1:6443"
              | Getenv "K8S_TOKEN" => "secret-token"
              | ServerVersion _ => Ok "v1.29.0"
              | c0 => unreachable c0
              end).

(** The same process without the bearer token. *)
Definition no_token : Env unit :=
  scripted (fun c =>
              match c as c0 return Resp c0 with
              | Getenv "K8S_HOST" => "https://10.0.0.1:6443"
              | ServerVersion _ => Ok "v1.29.0"
              | c0 => unreachable c0
              end).

(** *** Rejected bodies *)


(** *** Namespace metrics *)

(** The phases the remote API defines for a pod. *)
Definition declared_phase (phase : string) : Prop :=
  phase ∈ ["Pending"; "Running"; "Succeeded"; "Failed"; "Unknown"].

(** How many pods of the list are in the phase. *)
Definition tally (phase : string) (pods : list Pod.t) : Z :=
  Z.of_nat (length (filter (fun p => Pod.Phase p = phase) pods)).

(** A counter after [n] more increments: a key that was never seeded and
    never incremented stays absent. *)
Definition bump (o : option Z) (n : Z) : option Z :=
  match o with
  | Some x => Some (x + n)
  | None => if n =? 0 then None else Some n
  end.

(** A namespace with two running pods and one pending pod. *)
Definition three_pods : list Pod.t :=
  [Pod.mk (ObjectMeta.mk "web-1" "default" None None 0 "1") [] [] "Running";
   Pod.mk (ObjectMeta.mk "web-2" "default" None None 0 "2") [] [] "Running";
   Pod.mk (ObjectMeta.mk "job-1" "default" None None 0 "3") [] [] "Pending"].

Definition serves_three_pods : Env unit :=
  scripted (fun c =>
              match c as c0 return Resp c0 with
              | ApiList KPod _ => Ok three_pods
              | c0 => unreachable c0
              end).

(** *** Definitions for the further properties *)

(** All the addresses of an endpoints object, subset after subset. *)
Definition addresses (ep : Endpoints.t) : list EndpointAddress.t :=
  concat (Endpoints.Subsets ep).

(** One row of a load-balancer status. *)
Definition lb_row (i : LoadBalancerIngress.t) : Value :=
  VObject [("ip", VString (LoadBalancerIngress.IP i));
           ("hostname", VString (LoadBalancerIngress.Hostname i))].

(** The deployments a run asked the remote API to create. *)
Definition deployments_created (l : list Call) : list Deployment.t :=
  omap (fun c => match c with
                 | ApiCreate KDeployment _ obj => Some obj
                 | _ => None
                 end) l.

(** A remote API that holds the deployment [d] and nothing else. *)
Definition serving_deployment (d : Deployment.t) : Env unit :=
  scripted (fun c =>
              match c as c0 return Resp c0 with
              | ApiGet KDeployment _ _ => Ok d
              | ApiUpdate KDeployment _ obj => Ok obj
              | c0 => unreachable c0
              end).

(** The status operation, asked about the stored deployment [d], returns a
    report with [n] as the desired number of replicas. *)
Definition status_desires (d : Deployment.t) (n : Z) : Prop :=
  exists status counts,
    outcome (run (serving_deployment d)
               (deployment.DeploymentAPI.GetDeploymentStatus
                  (ObjectMeta.Namespace (Deployment.Meta d))
                  (ObjectMeta.Name (Deployment.Meta d))) tt)
    = Returned (Ok (Base.NewSuccessResponse status)) /\
    field "replicas" status = Some (VIntMap counts) /\
    counts !! "desired" = Some n.

(** A deployment of two containers. *)
Definition sample_deployment : Deployment.t :=
  Deployment.mk (ObjectMeta.mk "web" "default" None None 0 "9")
    (Some 2) (Some {["app" := "web"]}) (Some {["app" := "web"]})
    [Container.mk "web" "nginx:1.24" [80] [] [];
     Container.mk "sidecar" "envoy:1.29" [9901] [] []]
    "RollingUpdate" 2 2 2 2 [].

(** Some path of some rule has no service backend. *)
Definition backendless (rules : list IngressRule.t) : Prop :=
  Exists (fun rule =>
            match IngressRule.HTTP rule with
            | Some paths => Exists (fun p => HTTPIngressPath.Service p = None) paths
            | None => False
            end) rules.

(** The row [getIngressRules] makes of a path of a request. *)
Definition requested_path_row (p : ingress.pathRequest.t) : Value :=
  VObject [("path", VString (ingress.pathRequest.Path p));
           ("pathType", VString (ingress.pathRequest.PathType p));
           ("backend",
            VObject [("service",
                      VObject [("name", VString (ingress.pathRequest.ServiceName p));
                               ("port",
                                VObject (if ingress.pathRequest.ServicePort p =? 0 then []
                                         else [("number",
                                                VInt (ingress.pathRequest.ServicePort p))]))])])].

Definition requested_rule_row (r : ingress.ruleRequest.t) : Value :=
  VObject [("host", VString (ingress.ruleRequest.Host r));
           ("paths", VArray (map requested_path_row (ingress.ruleRequest.Paths r)))].

(** The sum of all the counters of a status map. *)
Definition total (m : gmap string Z) : Z :=
  map_fold (fun _ v acc => v + acc) 0 m.

#[global] Instance references_dec (volumeRef : Volume.t -> option string)
    (envFromRef : EnvFromSource.t -> option string)
    (keyRef : EnvVarSource.t -> option string) (target : string) (p : Pod.t) :
  Decision (references volumeRef envFromRef keyRef target p).
Proof. unfold references. apply _. Defined.


(** *** Reading the trace of [config.Load] *)

(** The two answers that make [Load] fail: no home directory, or a
    kubeconfig path that does not exist. *)
Definition is_load_failure (ev : Event) : bool :=
  match ev with
  | existT c x =>
      match c as c0 return Resp c0 -> bool with
      | UserHomeDir => fun x => match x with Ok _ => false | Err _ => true end
      | Stat _ => fun x => match x with Some (_, true) => true | _ => false end
      | _ => fun _ => false
      end x
  end.

Definition is_home (c : Call) : bool :=
  match c with UserHomeDir => true | _ => false end.

(** The environment variable [key] was read with [os.Getenv] and was empty. *)
Definition is_unset (key : string) (ev : Event) : bool :=
  match ev with
  | existT c x =>
      match c as c0 return Resp c0 -> bool with
      | Getenv k => fun v => String.eqb k key && String.eqb v ""
      | _ => fun _ => false
      end x
  end.

(** The path that was cleaned into [path] was then examined with [os.Stat]. *)
Definition is_cleaned_to (path : string) (ev : Event) : bool :=
  match ev with
  | existT c x =>
      match c as c0 return Resp c0 -> bool with
      | PathClean _ => fun v => String.eqb v path
      | _ => fun _ => false
      end x
  end.

Definition is_stat_of (path : string) (c : Call) : bool :=
  match c with Stat p => String.eqb p path | _ => false end.

(** What [os.LookupEnv] answered for [key] in a trace: [None] when the
    variable was unset, or never looked up. *)
Definition looked_up (key : string) (tr : list Event) : option string :=
  fold_right (fun ev acc =>
                match ev with
                | existT c x =>
                    match c as c0 return Resp c0 -> option string with
                    | LookupEnv k => fun v => if String.eqb k key then v else acc
                    | _ => fun _ => acc
                    end x
                end) None tr.

(** The value of a setting with a default. *)
Definition or_default (o : option string) (d : string) : string :=
  match o with Some v => v | None => d end.

(** *** Reading the trace of [NewClient] and of the serving part of [main] *)

(** The configurations handed to [kubernetes.NewForConfig]. *)
Definition built (cs : list Call) : list RestConfig.t :=
  omap (fun c => match c with NewForConfig cfg => Some cfg | _ => None end) cs.

(** The clientsets [kubernetes.NewForConfig] answered with. *)
Definition made (tr : list Event) : list Clientset :=
  omap (fun ev : Event =>
          match ev with
          | existT c x =>
              match c as c0 return Resp c0 -> option Clientset with
              | NewForConfig _ => fun x => match x with Ok cs => Some cs | Err _ => None end
              | _ => fun _ => None
              end x
          end) tr.

(** The clientsets whose server version was asked for. *)
Definition probed (cs : list Call) : list Clientset :=
  omap (fun c => match c with ServerVersion cs => Some cs | _ => None end) cs.

(** The configurations the kubeconfig loader answered with. *)
Definition loaded (tr : list Event) : list RestConfig.t :=
  omap (fun ev : Event =>
          match ev with
          | existT c x =>
              match c as c0 return Resp c0 -> option RestConfig.t with
              | ClientConfig _ _ => fun x => match x with Ok cfg => Some cfg | Err _ => None end
              | _ => fun _ => None
              end x
          end) tr.

(** The path and server override of each use of the kubeconfig loader. *)
Definition loads (cs : list Call) : list (string * string) :=
  omap (fun c => match c with ClientConfig path server => Some (path, server) | _ => None end)
       cs.

(** What [os.Getenv] answered for [key] in a trace, the empty string when it
    was not asked. *)
Definition getenv (key : string) (tr : list Event) : string :=
  fold_right (fun ev acc =>
                match ev with
                | existT c x =>
                    match c as c0 return Resp c0 -> string with
                    | Getenv k => fun v => if String.eqb k key then v else acc
                    | _ => fun _ => acc
                    end x
                end) "" tr.


(** *** What the write handlers send *)

(** [obj.ObjectMeta] of an object of any kind. *)
Definition meta (k : Kind) : Obj k -> ObjectMeta.t :=
  match k with
  | KSecret => Secret.Meta
  | KConfigMap => ConfigMap.Meta
  | KPod => Pod.Meta
  | KService => Service.Meta
  | KEndpoints => Endpoints.Meta
  | KDeployment => Deployment.Meta
  | KIngress => Ingress.Meta
  end.

(** What tells the remote API which object, and which version of it, a
    write is about. *)
Definition identity (m : ObjectMeta.t) : string * string * Time * string :=
  (ObjectMeta.Name m, ObjectMeta.Namespace m,
   ObjectMeta.CreationTimestamp m, ObjectMeta.ResourceVersion m).

(** The run of a create handler: one call, which creates an object named
    [name] in the namespace [ns]; 201 when the remote API accepted it, 500
    with the handled error when it did not. *)
Definition creates_once {S : Type} (k : Kind) (operation : string) (env : Env S) (s : S)
    (ns name : string) (r : Run Response S) : Prop :=
  exists obj,
    calls r = [ApiCreate k ns obj] /\
    ObjectMeta.Name (meta k obj) = name /\
    ObjectMeta.Namespace (meta k obj) = ns /\
    match fst (env (ApiCreate k ns obj) s), outcome r with
    | Ok _, Returned resp => code resp = StatusCreated
    | Ok _, Panicked _ => k = KIngress
    | Err e, Returned resp => resp = serverError (Base.HandleError e operation)
    | _, _ => False
    end.

(** The run of an update handler: the object is read by the route's
    namespace and name; what is sent back, if anything, is sent to the same
    namespace and has the identity of the object read. *)
Definition keeps_identity {S : Type} (k : Kind) (env : Env S) (s : S)
    (ns name : string) (r : Run Response S) : Prop :=
  match fst (env (ApiGet k ns name) s) with
  | Err _ => calls r = [ApiGet k ns name]
  | Ok current =>
      (calls r = [ApiGet k ns name] /\ exists msg, outcome r = Panicked msg) \/
      exists sent,
        calls r = [ApiGet k ns name; ApiUpdate k ns sent] /\
        identity (meta k sent) = identity (meta k current)
  end.

(** *** Parameters of the route patterns *)






(** ** Properties *)

Lemma Forall_map_strip (l : list Secret.t) :
  Forall no_values (map secret.SecretAPI.strip l).
Proof.
  induction l as [|x l IH]; simpl; constructor; auto.
  split; reflexivity.
Qed.

Lemma map_strip_without_values (l : list Secret.t) :
  map secret.SecretAPI.strip (map without_values l) = map secret.SecretAPI.strip l.
Proof.
  induction l as [|x l IH]; simpl; [reflexivity|].
  now rewrite IH.
Qed.

Lemma map_len_blank (m : option (gmap string string)) :
  map_len ((fun m : gmap string string => (fun _ => "") <$> m) <$> m) = map_len m.
Proof.
  destruct m as [m|]; simpl; [|reflexivity].
  now rewrite map_size_fmap.
Qed.

(** C1 (as amended).  The secret module hands out no value payload: every
    object returned by [ListSecrets] and [GetSecret] has both its byte-valued
    and its string-keyed data map nil, and what the handlers of the secret
    list and get routes and of the config-object list route write is the
    same whether the remote objects carry values or not.  The handler of the
    config-object get route writes the [data] and [binaryData] maps of the
    fetched object as they are. *)
Theorem C1_secret_values_never_leave :
  (forall S (env : Env S) s ns,
      on_success (run env (secret.SecretAPI.ListSecrets ns) s) (Forall no_values)) /\
  (forall S (env : Env S) s ns name,
      on_success (run env (secret.SecretAPI.GetSecret ns name) s) no_values) /\
  (forall S (env : Env S) s c,
      outcome (run (hide_secret_values env) (secret.Handler.ListSecrets c) s)
      = outcome (run env (secret.Handler.ListSecrets c) s)) /\
  (forall S (env : Env S) s c,
      outcome (run (hide_secret_values env) (secret.Handler.GetSecret c) s)
      = outcome (run env (secret.Handler.GetSecret c) s)) /\
  (forall S (env : Env S) s c,
      outcome (run (hide_configmap_values env) (configmap.Handler.ListConfigMaps c) s)
      = outcome (run env (configmap.Handler.ListConfigMaps c) s)) /\
  (forall S (env : Env S) s c,
      match fst (env (ApiGet KConfigMap (Param c "namespace") (Param c "name")) s) with
      | Ok cm =>
          let shown := field "data" (written (run env (configmap.Handler.GetConfigMap c) s)) in
          shown ≫= field "data" = Some (opt_value VStrMap (ConfigMap.Data cm)) /\
          shown ≫= field "binaryData" = Some (opt_value VBytesMap (ConfigMap.BinaryData cm))
      | Err _ => True
      end).
Proof.
  split; [|split; [|split; [|split; [|split]]]].
  - intros S env s ns. unfold on_success. simpl.
    destruct (env (ApiList KSecret ns) s) as [[l|e] s1]; simpl; [|exact I].
    apply Forall_map_strip.
  - intros S env s ns name. unfold on_success. simpl.
    destruct (env (ApiGet KSecret ns name) s) as [[a|e] s1]; simpl; [|exact I].
    split; reflexivity.
  - intros S env s c. simpl.
    destruct (env (ApiList KSecret (Param c "namespace")) s) as [[l|e] s1]; simpl;
      [|reflexivity].
    now rewrite map_strip_without_values.
  - intros S env s c. simpl.
    destruct (env (ApiGet KSecret (Param c "namespace") (Param c "name")) s)
      as [[a|e] s1]; reflexivity.
  - intros S env s c. simpl.
    destruct (env (ApiList KConfigMap (Param c "namespace")) s) as [[l|e] s1]; simpl;
      [|reflexivity].
    rewrite map_map. do 4 f_equal.
    apply map_ext. intros x. simpl. now rewrite map_len_blank.
  - intros S env s c. unfold written. simpl.
    destruct (env (ApiGet KConfigMap (Param c "namespace") (Param c "name")) s)
      as [[cm|e] s1]; simpl; auto.
Qed.

(** C1, as stated, fails on the config-object get route: the handler writes
    the [data] map of the fetched object, values included. *)
Lemma C1_configmap_get_shows_values :
  field "data" (written (run serves_configmap
                           (configmap.Handler.GetConfigMap (context "default" "app-config")) tt))
    ≫= field "data"
  = Some (VStrMap {["database.url" := "postgres://db:5432"]}).
Proof. vm_compute. reflexivity. Qed.

(** With the body [{}] the update handlers of config objects, services,
    deployments and ingresses send the object they read back unchanged. *)
Lemma empty_update_resubmits_current :
  forall S (env : Env S) s c,
    let ns := Param c "namespace" in
    let name := Param c "name" in
    resubmits KConfigMap env s ns name (fun cur => cur)
      (calls (run env (configmap.Handler.UpdateConfigMap c (Bound configmap.updateRequest.zero)) s)) /\
    resubmits KService env s ns name (fun cur => cur)
      (calls (run env (service.Handler.UpdateService c (Bound service.updateRequest.zero)) s)) /\
    resubmits KDeployment env s ns name (fun cur => cur)
      (calls (run env (deployment.Handler.UpdateDeployment c (Bound deployment.updateRequest.zero)) s)) /\
    resubmits KIngress env s ns name (fun cur => cur)
      (calls (run env (ingress.Handler.UpdateIngress c (Bound ingress.updateRequest.zero)) s)).
Proof.
  intros S env s c ns name. unfold resubmits, calls. subst ns name.
  repeat split; simpl.
  - destruct (env (ApiGet KConfigMap _ _) s) as [[cur|e] s1]; simpl; [|reflexivity].
    destruct (env (ApiUpdate KConfigMap _ _) s1) as [[r|e] s2]; reflexivity.
  - destruct (env (ApiGet KService _ _) s) as [[cur|e] s1]; simpl; [|reflexivity].
    destruct (env (ApiUpdate KService _ _) s1) as [[r|e] s2]; reflexivity.
  - destruct (env (ApiGet KDeployment _ _) s) as [[cur|e] s1]; simpl; [|reflexivity].
    destruct (env (ApiUpdate KDeployment _ _) s1) as [[r|e] s2]; reflexivity.
  - destruct (env (ApiGet KIngress _ _) s) as [[cur|e] s1]; simpl; [|reflexivity].
    destruct (env (ApiUpdate KIngress _ _) s1) as [[r|e] s2]; simpl; [|reflexivity].
    unfold ingress.Handler.withRules.
    destruct (ingress.IngressAPI.getIngressRules _); reflexivity.
Qed.

(** The update handler of secrets reads through [GetSecret], which has
    already removed the values: with the body [{}] it sends the secret back
    without them. *)
Lemma empty_secret_update_resubmits_stripped :
  forall S (env : Env S) s c,
    resubmits KSecret env s (Param c "namespace") (Param c "name") without_values
      (calls (run env (secret.Handler.UpdateSecret c (Bound secret.updateRequest.zero)) s)).
Proof.
  intros S env s c. unfold resubmits, calls. simpl.
  destruct (env (ApiGet KSecret _ _) s) as [[cur|e] s1]; simpl; [|reflexivity].
  destruct (env (ApiUpdate KSecret _ _) s1) as [[r|e] s2]; reflexivity.
Qed.

(** C2 at the failing input: the secret [app-credentials] holds a password;
    the update with the body [{}] submits it with a nil data map. *)
Lemma C2_empty_secret_update_submits_no_data :
  Secret.Data sample_secret = Some {["password" := bytes_of "hunter2"]} /\
  calls (run serves_secret
           (secret.Handler.UpdateSecret (context "default" "app-credentials")
              (Bound secret.updateRequest.zero)) tt)
  = [ApiGet KSecret "default" "app-credentials";
     ApiUpdate KSecret "default"
       (Secret.mk (ObjectMeta.mk "app-credentials" "default" None None 0 "17")
                  "Opaque" None None)].
Proof. split; reflexivity. Qed.

(** *** The usage scan against its specification *)

Section UsageProofs.

Variable volumeRef : Volume.t -> option string.
Variable envFromRef : EnvFromSource.t -> option string.
Variable keyRef : EnvVarSource.t -> option string.
Variable target : string.















End UsageProofs.

Section UsageReport.

Variable volumeRef : Volume.t -> option string.
Variable envFromRef : EnvFromSource.t -> option string.
Variable keyRef : EnvVarSource.t -> option string.
Variable target : string.











End UsageReport.

Example usage_of_app_config :
  UsageScan.usingPods Volume.ConfigMap EnvFromSource.ConfigMapRef EnvVarSource.ConfigMapKeyRef
    "app-config" [web_pod; worker_pod]
  = [UsageScan.mkEntry "web" "Running"
       (<["volumeMounts" := ["config-volume"]]>
        (<["envFrom" := ["nginx"]]>
        (<["envVars" := ["nginx:DATABASE_URL"]]> ∅)))].
Proof. vm_compute. reflexivity. Qed.






Example delete_of_missing_configmap :
  outcome (run nothing_stored
             (configmap.Handler.DeleteConfigMap (context "default" "missing")) tt)
  = Returned (JSON 500
      (failure ("delete configmap failed: configmaps " +:+ dquote +:+ "missing" +:+ dquote +:+
                " not found (Code: 404, Reason: NotFound)"))).
Proof. vm_compute. reflexivity. Qed.




Lemma no_addresses (ep : Endpoints.t) :
  Forall (fun subset => subset = []) (Endpoints.Subsets ep) ->
  service.ServiceAPI.getEndpointAddresses ep = slice_value [].
Proof.
  unfold service.ServiceAPI.getEndpointAddresses. intros H.
  induction H as [|subset l -> _ IH]; [reflexivity|]. exact IH.
Qed.

Lemma servicePort_row (p : service.portRequest.t) :
  service.ServiceAPI.getServicePorts [service.Handler.servicePort p] = VArray [port_row p].
Proof.
  unfold service.ServiceAPI.getServicePorts, service.Handler.servicePort, port_row.
  destruct (String.eqb (service.portRequest.Protocol p) "");
    destruct (0 <? service.portRequest.NodePort p); reflexivity.
Qed.

(** C6.  A create request with one port mapping [p] and a selector of two
    entries submits one service; when that service later reads back with the
    ports and the selector it was submitted with, and its endpoints object has
    no address in any subset, the status handler answers 200 with a report
    whose [ports] list holds exactly the row of [p], whose [endpoints] slice
    has no element, and whose [selector] is the selector of the request. *)
Theorem C6_created_service_status :
  forall S (env : Env S) (s0 s1 : S) (c : Context)
         (req : service.serviceRequest.t) (p : service.portRequest.t)
         (selector : gmap string string) (submitted stored : Service.t) (ep : Endpoints.t),
    let ns := Param c "namespace" in
    let name := service.serviceRequest.Name req in
    service.serviceRequest.Ports req = [p] ->
    service.serviceRequest.Selector req = Some selector ->
    size selector = 2%nat ->
    services_created (calls (run env (service.Handler.CreateService c (Bound req)) s0))
    = [submitted] ->
    fst (env (ApiGet KService ns name) s1) = Ok stored ->
    Service.Ports stored = Service.Ports submitted ->
    Service.Selector stored = Service.Selector submitted ->
    fst (env (ApiGet KEndpoints ns name) (snd (env (ApiGet KService ns name) s1))) = Ok ep ->
    Forall (fun subset => subset = []) (Endpoints.Subsets ep) ->
    exists data,
      outcome (run env (service.Handler.GetServiceStatus (context ns name)) s1)
      = Returned (JSON StatusOK (success data)) /\
      field "ports" data = Some (VArray [port_row p]) /\
      field "endpoints" data = Some (slice_value []) /\
      field "selector" data = Some (VStrMap selector).
Proof.
  intros S env s0 s1 c req p selector submitted stored ep ns name
         Hports Hsel _ Hcreate Hget Hp Hs Hep Hnone.
  assert (Hsub : Service.Ports submitted = [service.Handler.servicePort p] /\
                 Service.Selector submitted = Some selector).
  { unfold calls in Hcreate. simpl in Hcreate.
    destruct (env (ApiCreate KService _ _) s0) as [[r|e] s0']; simpl in Hcreate;
      injection Hcreate as <-; simpl; rewrite Hports, Hsel; auto. }
  destruct Hsub as [Hsp Hss]. rewrite Hsp in Hp. rewrite Hss in Hs.
  simpl.
  destruct (env (ApiGet KService ns name) s1) as [r1 s2]. simpl in Hget, Hep. subst r1.
  simpl.
  destruct (env (ApiGet KEndpoints ns name) s2) as [r2 s3]. simpl in Hep. subst r2.
  simpl. eexists. split; [reflexivity|].
  simpl. rewrite Hp, Hs, servicePort_row, (no_addresses ep Hnone). auto.
Qed.

Lemma C6_witness :
  exists data,
    outcome (run one_service_cluster
               (service.Handler.GetServiceStatus (context "default" "nginx-service"))
               (final (run one_service_cluster
                         (service.Handler.CreateService (context "default" "")
                            (Bound nginx_service_request)) None)))
    = Returned (JSON StatusOK (success data)) /\
    field "ports" data
    = Some (VArray [VObject [("name", VString "http"); ("protocol", VString "TCP");
                             ("port", VInt 80); ("targetPort", VString "8080");
                             ("nodePort", VInt 0)]]) /\
    field "endpoints" data = Some VNull /\
    field "selector" data = Some (VStrMap (<["app" := "nginx"]> (<["tier" := "web"]> ∅))).
Proof.
  eapply (C6_created_service_status (option Service.t) one_service_cluster None _
            (context "default" "") nginx_service_request
            (service.portRequest.mk "http" 80 8080 0 "TCP")).
  - reflexivity.
  - reflexivity.
  - vm_compute. reflexivity.
  - vm_compute. reflexivity.
  - vm_compute. reflexivity.
  - vm_compute. reflexivity.
  - vm_compute. reflexivity.
  - vm_compute. reflexivity.
  - vm_compute. constructor.
Defined.

(** *** Runs, one call at a time *)

Lemma run_vis {R S : Type} (env : Env S) (c : Call) (k : Resp c -> Prog R) (s : S) :
  run env (Vis c k) s
  = let '(x, s') := env c s in prepend (event c x) (run env (k x) s').
Proof. reflexivity. Qed.

Lemma run_ret {R S : Type} (env : Env S) (r : R) (s : S) :
  run env (Ret r) s = mkRun [] (Returned r) s.
Proof. reflexivity. Qed.

Lemma run_fatal {R S : Type} (env : Env S) (msg : string) (s : S) :
  @run R S env (Fatal msg) s = mkRun [] (Exited msg) s.
Proof. reflexivity. Qed.

(** Name the answer of the environment to the next call of the run. *)
Ltac vis :=
  cbn [bind call]; rewrite run_vis;
  match goal with
  | |- context [let '(_, _) := ?e in _] => destruct e as [? ?]
  end;
  cbv beta iota; cbn [bind call].

(** The run has come to its end. *)
Ltac done_run :=
  cbn [bind call]; first [rewrite run_ret | rewrite run_fatal]; cbn;
  repeat match goal with
         | H : String.eqb _ _ = _ |- _ => rewrite ?H; clear H
         end;
  cbn; repeat split; intros; try discriminate; eauto.
















Example healthy_start :
  calls (run healthy_cluster (main.main kubernetes.token.NewClient) tt)
  = [DotenvLoad; Getenv "KUBECONFIG"; UserHomeDir; PathJoin ["/root"; ".kube"; "config"];
     PathClean "/root/.kube/config"; Stat "/root/.kube/config";
     LookupEnv "SERVER_ADDRESS"; LookupEnv "LOG_LEVEL"; LookupEnv "ENV"; LookupEnv "K8S_HOST";
     Getenv "K8S_HOST"; Getenv "K8S_TOKEN";
     NewForConfig (RestConfig.mk "https://10.0.0.1:6443" "secret-token" true);
     ServerVersion (mkClientset (RestConfig.mk "https://10.0.0.1:6443" "secret-token" true));
     ListenAndServe ":8080"; WaitSignal; Shutdown] /\
  outcome (run healthy_cluster (main.main kubernetes.token.NewClient) tt) = Returned tt.
Proof. vm_compute. split; reflexivity. Qed.

Example start_without_token :
  outcome (run no_token (main.main kubernetes.token.NewClient) tt)
  = Exited "Failed to create Kubernetes client: K8S_TOKEN environment variable is required" /\
  server_started (run no_token (main.main kubernetes.token.NewClient) tt) = false /\
  probe_succeeded (run no_token (main.main kubernetes.token.NewClient) tt) = false.
Proof. vm_compute. repeat split; reflexivity. Qed.



(** C9.  [GetDeploymentStatus] makes one read; on a deployment whose
    [Spec.Replicas] is nil the run panics with the nil dereference of the Go
    runtime, on one whose [Spec.Replicas] points to [n] it returns a report
    with [n] as the desired replica count, and on a failed read it returns the
    rewrapped error: the operation returns exactly when the read fails or the
    pointer is not nil. *)
Theorem C9_status_needs_replicas :
  forall S (env : Env S) s ns name,
    let r := run env (deployment.DeploymentAPI.GetDeploymentStatus ns name) s in
    calls r = [ApiGet KDeployment ns name] /\
    match fst (env (ApiGet KDeployment ns name) s) with
    | Ok d =>
        match Deployment.Replicas d with
        | None => outcome r = Panicked nilDereference
        | Some n =>
            exists status counts,
              outcome r = Returned (Ok (Base.NewSuccessResponse status)) /\
              field "replicas" status = Some (VIntMap counts) /\
              counts !! "desired" = Some n
        end
    | Err err => outcome r = Returned (Err (Base.HandleError err "get deployment"))
    end.
Proof.
  intros S env s ns name r. subst r. unfold calls. simpl.
  destruct (env (ApiGet KDeployment ns name) s) as [[d|e] s1]; simpl; [|auto].
  destruct (Deployment.Replicas d) as [n|]; simpl; [|auto].
  split; [reflexivity|]. eexists _, _. split; [reflexivity|]. split; [reflexivity|].
  apply lookup_insert_eq.
Qed.

Lemma tally_nonneg (phase : string) (pods : list Pod.t) : 0 <= tally phase pods.
Proof. unfold tally. lia. Qed.

Lemma tally_cons (phase : string) (p : Pod.t) (pods : list Pod.t) :
  tally phase (p :: pods)
  = (if decide (Pod.Phase p = phase) then 1 else 0) + tally phase pods.
Proof.
  unfold tally. destruct (decide (Pod.Phase p = phase)) as [E|E].
  - rewrite filter_cons_True by exact E. simpl length. lia.
  - rewrite filter_cons_False by exact E. lia.
Qed.

(** Every counter of the status map, after the loop over the pods. *)
Lemma count_lookup (pods : list Pod.t) :
  forall (m : gmap string Z) (k : string),
    (forall x, m !! k = Some x -> 0 <= x) ->
    fold_left (fun status pod => namespace.NamespaceAPI.increment (Pod.Phase pod) status) pods m
      !! k
    = bump (m !! k) (tally k pods).
Proof.
  induction pods as [|p pods IH]; intros m k Hm.
  - simpl. unfold bump, tally. simpl. destruct (m !! k); [f_equal; lia | reflexivity].
  - simpl fold_left. rewrite IH.
    + rewrite tally_cons. unfold namespace.NamespaceAPI.increment.
      pose proof (tally_nonneg k pods) as Hn.
      destruct (decide (Pod.Phase p = k)) as [->|E].
      * rewrite lookup_insert_eq. unfold bump.
        destruct (m !! k) as [x|]; [f_equal; lia|].
        destruct (1 + tally k pods =? 0) eqn:Z0; [lia|]. f_equal; lia.
      * rewrite lookup_insert_ne by exact E. now rewrite Z.add_0_l.
    + intros x. unfold namespace.NamespaceAPI.increment.
      destruct (decide (Pod.Phase p = k)) as [->|E].
      * rewrite lookup_insert_eq. intros [= <-].
        destruct (m !! k) as [y|] eqn:Ey; [specialize (Hm y eq_refl)|]; lia.
      * rewrite lookup_insert_ne by exact E. apply Hm.
Qed.

Lemma tally_zero (phase : string) (pods : list Pod.t) :
  Forall (fun p => Pod.Phase p <> phase) pods -> tally phase pods = 0.
Proof.
  intros H. induction H as [|p pods Hp _ IH]; [reflexivity|].
  rewrite tally_cons, IH. now destruct (decide (Pod.Phase p = phase)).
Qed.

Lemma tally_positive (p : Pod.t) (pods : list Pod.t) :
  p ∈ pods -> 0 < tally (Pod.Phase p) pods.
Proof.
  intros H. induction H as [p pods|p q pods _ IH].
  - rewrite tally_cons. pose proof (tally_nonneg (Pod.Phase p) pods).
    destruct (decide (Pod.Phase p = Pod.Phase p)); [lia|congruence].
  - rewrite tally_cons. destruct (decide (Pod.Phase q = Pod.Phase p)); lia.
Qed.

(** C10.  When every fetched pod is in a phase the remote API defines
    ([Pending], [Running], [Succeeded], [Failed], [Unknown]), the report of
    [GetNamespaceMetrics] has [podCount] equal to the number of fetched pods,
    the four seeded counters [running], [pending], [failed] and [succeeded]
    all at zero, and the pods tallied under their capitalized phase, each
    phase that occurs being a key of its own. *)
Theorem C10_lowercase_counters_stay_zero :
  forall S (env : Env S) s name (pods : list Pod.t),
    fst (env (ApiList KPod name) s) = Ok pods ->
    Forall (fun p => declared_phase (Pod.Phase p)) pods ->
    exists status : gmap string Z,
      outcome (run env (namespace.NamespaceAPI.GetNamespaceMetrics name) s)
      = Returned (Ok (Base.NewSuccessResponse
                        (VObject [("podCount", VInt (Z.of_nat (length pods)));
                                  ("status", VIntMap status)]))) /\
      status !! "running" = Some 0 /\
      status !! "pending" = Some 0 /\
      status !! "failed" = Some 0 /\
      status !! "succeeded" = Some 0 /\
      (forall p, p ∈ pods ->
                 status !! Pod.Phase p = Some (tally (Pod.Phase p) pods) /\
                 0 < tally (Pod.Phase p) pods).
Proof.
  intros S env s name pods Hlist Hdecl.
  exists (namespace.NamespaceAPI.countByStatus pods).
  split.
  { simpl. destruct (env (ApiList KPod name) s) as [r s1]. simpl in Hlist. now subst r. }
  assert (Hseed : forall x k, namespace.NamespaceAPI.seededStatus !! k = Some x -> 0 <= x).
  { intros x k. unfold namespace.NamespaceAPI.seededStatus.
    rewrite !lookup_insert. repeat case_decide; try (intros [= <-]; lia);
      try (rewrite lookup_empty; discriminate). }
  assert (Hlow : forall k, k ∈ ["running"; "pending"; "failed"; "succeeded"] ->
                           namespace.NamespaceAPI.countByStatus pods !! k = Some 0).
  { intros k Hk. unfold namespace.NamespaceAPI.countByStatus.
    rewrite count_lookup by (intros x; apply Hseed).
    rewrite tally_zero.
    - unfold namespace.NamespaceAPI.seededStatus.
      repeat (apply elem_of_cons in Hk as [->|Hk]); try (now apply elem_of_nil in Hk);
        reflexivity.
    - eapply Forall_impl; [exact Hdecl|]. intros p Hp Heq. unfold declared_phase in Hp.
      rewrite Heq in Hp.
      repeat (apply elem_of_cons in Hk as [->|Hk]); try (now apply elem_of_nil in Hk);
        repeat (apply elem_of_cons in Hp as [Hp|Hp]); try discriminate;
        now apply elem_of_nil in Hp. }
  repeat (split; [apply Hlow; set_solver|]).
  intros p Hp. split; [|now apply tally_positive].
  unfold namespace.NamespaceAPI.countByStatus.
  rewrite count_lookup by (intros x; apply Hseed).
  pose proof (tally_positive p pods Hp) as Hpos.
  assert (Hphase : declared_phase (Pod.Phase p)).
  { rewrite Forall_forall in Hdecl. now apply Hdecl. }
  unfold declared_phase in Hphase. unfold namespace.NamespaceAPI.seededStatus.
  repeat (apply elem_of_cons in Hphase as [Hphase|Hphase]);
    try (now apply elem_of_nil in Hphase);
    rewrite Hphase in *; unfold bump; simpl;
    destruct (tally _ pods =? 0) eqn:Z0; try lia; reflexivity.
Qed.

Lemma C10_witness :
  exists status : gmap string Z,
    outcome (run serves_three_pods (namespace.NamespaceAPI.GetNamespaceMetrics "default") tt)
    = Returned (Ok (Base.NewSuccessResponse
                      (VObject [("podCount", VInt 3); ("status", VIntMap status)]))) /\
    status !! "running" = Some 0 /\
    status !! "pending" = Some 0 /\
    status !! "failed" = Some 0 /\
    status !! "succeeded" = Some 0 /\
    (forall p, p ∈ three_pods ->
               status !! Pod.Phase p = Some (tally (Pod.Phase p) three_pods) /\
               0 < tally (Pod.Phase p) three_pods).
Proof.
  apply (C10_lowercase_counters_stay_zero unit serves_three_pods tt "default" three_pods).
  - reflexivity.
  - unfold three_pods, declared_phase. repeat constructor.
Defined.

Example metrics_of_three_pods :
  namespace.NamespaceAPI.countByStatus three_pods
  = <["Running" := 2]> (<["Pending" := 1]> namespace.NamespaceAPI.seededStatus).
Proof. vm_compute. reflexivity. Qed.

(** ** Further properties of the packages *)

(** *** Package secret *)

(** X1.  [GetSecretKeys] makes one read and reports the type of the secret
    together with its keys: every key of the data map exactly once, nothing
    else, and none of the values; a secret with a nil data map has an empty
    key list. *)
Theorem secret_keys_are_the_data_keys :
  forall S (env : Env S) s ns name,
    let r := run env (secret.SecretAPI.GetSecretKeys ns name) s in
    calls r = [ApiGet KSecret ns name] /\
    match fst (env (ApiGet KSecret ns name) s) with
    | Ok sec =>
        exists keys,
          outcome r = Returned (Ok (Base.NewSuccessResponse
                                      (VObject [("keys", VStrings keys);
                                                ("type", VString (Secret.Type_ sec))]))) /\
          NoDup keys /\
          (forall k, k ∈ keys <->
                     match Secret.Data sec with
                     | Some d => is_Some (d !! k)
                     | None => False
                     end)
    | Err err => outcome r = Returned (Err (Base.HandleError err "get secret keys"))
    end.
Proof.
  intros S env s ns name r. subst r. unfold calls. simpl.
  destruct (env (ApiGet KSecret ns name) s) as [[sec|e] s1]; simpl; [|auto].
  split; [reflexivity|]. eexists. split; [reflexivity|].
  destruct (Secret.Data sec) as [d|].
  - split; [apply NoDup_fst_map_to_list|].
    intros k. rewrite list_elem_of_fmap. split.
    + intros ([k' v] & -> & Hin). apply elem_of_map_to_list in Hin. simpl. eauto.
    + intros [v Hv]. exists (k, v). split; [reflexivity|]. now apply elem_of_map_to_list.
  - split; [constructor|]. intros k. split; [intros H; now apply elem_of_nil in H | tauto].
Qed.

(** X2.  What [CreateSecret] and [UpdateSecret] of the module return has no
    value payload either, whatever the remote API sends back; the object they
    submit is the one they were given. *)
Theorem secret_writes_return_no_values :
  forall S (env : Env S) s ns (obj : Secret.t),
    on_success (run env (secret.SecretAPI.CreateSecret ns obj) s) no_values /\
    calls (run env (secret.SecretAPI.CreateSecret ns obj) s) = [ApiCreate KSecret ns obj] /\
    on_success (run env (secret.SecretAPI.UpdateSecret ns obj) s) no_values /\
    calls (run env (secret.SecretAPI.UpdateSecret ns obj) s) = [ApiUpdate KSecret ns obj].
Proof.
  intros S env s ns obj. unfold on_success, calls, no_values. simpl.
  destruct (env (ApiCreate KSecret ns obj) s) as [[a|e] s1];
    destruct (env (ApiUpdate KSecret ns obj) s) as [[b|e'] s2]; simpl; auto.
Qed.

Lemma overlay_is_union (stringData : gmap string string)
    (data : option (gmap string (list Byte.byte))) :
  secret.Handler.overlayStringData stringData data
  = (bytes_of <$> stringData) ∪ (match data with Some d => d | None => ∅ end).
Proof.
  unfold secret.Handler.overlayStringData.
  induction stringData as [|k v m Hk IH] using map_ind.
  - rewrite map_fold_empty, fmap_empty. now rewrite (left_id_L ∅ (∪)).
  - rewrite map_fold_insert_L; [|intros; now apply insert_insert_ne|exact Hk].
    now rewrite IH, fmap_insert, insert_union_l.
Qed.

(** X3.  An update of a secret that carries [stringData] submits a data map
    with exactly the entries of the body, as bytes: the handler reads the
    current secret through [GetSecret], so no entry the secret had before is
    part of what it submits. *)
Theorem secret_update_submits_only_the_body :
  forall S (env : Env S) s c (stringData : gmap string string),
    resubmits KSecret env s (Param c "namespace") (Param c "name")
      (fun current => Secret.mk (Secret.Meta current) (Secret.Type_ current)
                                (Some (bytes_of <$> stringData)) None)
      (calls (run env (secret.Handler.UpdateSecret c
                         (Bound (secret.updateRequest.mk (Some stringData) None None))) s)).
Proof.
  intros S env s c stringData. unfold resubmits, calls. simpl.
  destruct (env (ApiGet KSecret _ _) s) as [[cur|e] s1]; simpl; [|reflexivity].
  rewrite overlay_is_union. simpl. rewrite (right_id_L ∅ (∪)).
  destruct (env (ApiUpdate KSecret _ _) s1) as [[r|e] s2]; reflexivity.
Qed.

(** *** Package service *)

(** X4.  The port a service is created or updated with never has an empty
    protocol (TCP stands in for an absent one) and never a negative node
    port (a node port that is not positive is left at zero); name and port
    are those of the request and the target port prints as its decimal. *)
Theorem service_port_is_well_formed :
  forall p : service.portRequest.t,
    let sp := service.Handler.servicePort p in
    ServicePort.Protocol sp <> "" /\
    (service.portRequest.Protocol p <> "" ->
     ServicePort.Protocol sp = service.portRequest.Protocol p) /\
    0 <= ServicePort.NodePort sp /\
    ServicePort.NodePort sp = Z.max 0 (service.portRequest.NodePort p) /\
    ServicePort.Name sp = service.portRequest.Name p /\
    ServicePort.Port sp = service.portRequest.Port p /\
    IntOrString_String (ServicePort.TargetPort sp) = itoa (service.portRequest.TargetPort p).
Proof.
  intros p sp. subst sp. unfold service.Handler.servicePort.
  destruct (String.eqb_spec (service.portRequest.Protocol p) "") as [E|E];
    destruct (Z.ltb_spec 0 (service.portRequest.NodePort p)) as [N|N]; simpl;
    repeat split; try discriminate; try assumption; try congruence; try lia.
Qed.

Lemma rows_of_addresses (subsets : list (list EndpointAddress.t)) (f : EndpointAddress.t -> Value) :
  flat_map (fun subset => map f subset) subsets = map f (concat subsets).
Proof.
  induction subsets as [|x l IH]; simpl; [reflexivity|].
  now rewrite IH, List.map_app.
Qed.

(** X5.  The endpoints field of a service status has one row per address, in
    the order of the subsets, and is the nil slice exactly when no subset has
    an address. *)
Theorem endpoint_rows_follow_the_addresses :
  forall ep : Endpoints.t,
    exists rows,
      service.ServiceAPI.getEndpointAddresses ep = slice_value rows /\
      length rows = length (addresses ep) /\
      map (field "ip") rows
      = map (fun a => Some (VString (EndpointAddress.IP a))) (addresses ep) /\
      (service.ServiceAPI.getEndpointAddresses ep = VNull <-> addresses ep = []).
Proof.
  intros ep. unfold service.ServiceAPI.getEndpointAddresses, addresses.
  rewrite rows_of_addresses. eexists. split; [reflexivity|].
  split; [apply length_map|]. split.
  - rewrite List.map_map. reflexivity.
  - destruct (concat (Endpoints.Subsets ep)); simpl; split; congruence.
Qed.

(** X6.  [GetServiceStatus] reads the service and then its endpoints.  When
    the first read fails it stops there and hands the error of [GetService]
    on unchanged; when the second fails the error is rewrapped as
    [get service endpoints]; otherwise it returns a report whose
    [loadBalancer] field is the nil slice for every service that is not of
    type LoadBalancer, whatever its status holds. *)
Theorem service_status_reads_twice :
  forall S (env : Env S) s ns name,
    let r := run env (service.ServiceAPI.GetServiceStatus ns name) s in
    match env (ApiGet KService ns name) s with
    | (Err err, _) =>
        calls r = [ApiGet KService ns name] /\
        outcome r = Returned (Err (Base.HandleError err "get service"))
    | (Ok svc, s1) =>
        calls r = [ApiGet KService ns name; ApiGet KEndpoints ns name] /\
        match fst (env (ApiGet KEndpoints ns name) s1) with
        | Err err =>
            outcome r = Returned (Err (Base.HandleError err "get service endpoints"))
        | Ok ep =>
            exists status,
              outcome r = Returned (Ok (Base.NewSuccessResponse status)) /\
              field "endpoints" status = Some (service.ServiceAPI.getEndpointAddresses ep) /\
              field "loadBalancer" status
              = Some (if String.eqb (Service.Type_ svc) "LoadBalancer"
                      then slice_value (map lb_row (Service.LoadBalancer svc))
                      else VNull)
        end
    end.
Proof.
  intros S env s ns name r. subst r. unfold calls. simpl.
  destruct (env (ApiGet KService ns name) s) as [[svc|e] s1]; simpl; [|auto].
  destruct (env (ApiGet KEndpoints ns name) s1) as [[ep|e] s2]; simpl; [|auto].
  split; [reflexivity|]. eexists. split; [reflexivity|]. split; [reflexivity|].
  simpl. unfold service.ServiceAPI.ServiceTypeLoadBalancer.
  destruct (String.eqb (Service.Type_ svc) "LoadBalancer"); reflexivity.
Qed.

(** X7.  In an update of a service an empty list of ports leaves the ports
    of the service as they are, while an empty list of external addresses, an
    empty selector and an empty label map replace what the service had: the
    handler tests the ports by their number and the other fields against nil. *)
Theorem service_update_empty_fields :
  forall S (env : Env S) s c,
    resubmits KService env s (Param c "namespace") (Param c "name")
      (fun current =>
         Service.mk (ObjectMeta.set_Labels (Some ∅) (Service.Meta current))
                    (Service.Type_ current) (Service.ClusterIP current)
                    (Some []) (Service.Ports current) (Some ∅)
                    (Service.SessionAffinity current) (Service.LoadBalancer current))
      (calls (run env (service.Handler.UpdateService c
                         (Bound (service.updateRequest.mk [] (Some ∅) (Some ∅) (Some [])))) s)).
Proof.
  intros S env s c. unfold resubmits, calls. simpl.
  destruct (env (ApiGet KService _ _) s) as [[cur|e] s1]; simpl; [|reflexivity].
  destruct (env (ApiUpdate KService _ _) s1) as [[r|e] s2]; reflexivity.
Qed.

(** *** Package deployment *)

Lemma status_of_replicas (d : Deployment.t) (n : Z) :
  Deployment.Replicas d = Some n -> status_desires d n.
Proof.
  intros H. unfold status_desires. simpl. rewrite H. simpl.
  eexists _, _. split; [reflexivity|]. split; [reflexivity|]. apply lookup_insert_eq.
Qed.

(** X8.  [CreateDeployment] submits, in the namespace of the route, one
    deployment named as the body says, with a non-nil replica count, a
    selector [app = name] equal to the labels of its pod template, and a
    single container of that name with the image, the container port and one
    variable per [envVars] entry of the body.  The status operation on a
    deployment stored as submitted returns, with the requested replica count
    as the desired one. *)
Theorem created_deployment_is_consistent :
  forall S (env : Env S) s c (req : deployment.deploymentRequest.t),
    let r := run env (deployment.Handler.CreateDeployment c (Bound req)) s in
    let name := deployment.deploymentRequest.Name req in
    exists d ctr,
      calls r = [ApiCreate KDeployment (Param c "namespace") d] /\
      ObjectMeta.Namespace (Deployment.Meta d) = Param c "namespace" /\
      ObjectMeta.Name (Deployment.Meta d) = name /\
      Deployment.Replicas d = Some (deployment.deploymentRequest.Replicas req) /\
      Deployment.Selector d = Some {["app" := name]} /\
      Deployment.TemplateLabels d = Deployment.Selector d /\
      Deployment.Containers d = [ctr] /\
      Container.Name ctr = name /\
      Container.Image ctr = deployment.deploymentRequest.Image req /\
      Container.Ports ctr = [deployment.deploymentRequest.ContainerPort req] /\
      length (Container.Env ctr) = length (deployment.deploymentRequest.EnvVars req) /\
      Forall (fun e => EnvVar.ValueFrom e = None) (Container.Env ctr) /\
      status_desires d (deployment.deploymentRequest.Replicas req).
Proof.
  intros S env s c req r name. subst r name. unfold calls. simpl.
  assert (Henv : forall l : list (gmap string string),
             length (deployment.Handler.envVars l) = length l /\
             Forall (fun e => EnvVar.ValueFrom e = None) (deployment.Handler.envVars l)).
  { intros l. unfold deployment.Handler.envVars. split; [apply length_map|].
    apply Forall_forall. intros x Hx. apply list_elem_of_fmap in Hx.
    destruct Hx as (g & -> & _). reflexivity. }
  destruct (deployment.deploymentRequest.EnvVars req) as [|e l];
    (eexists _, _; split;
     [destruct (env (ApiCreate KDeployment _ _) s) as [[a|err] s1]; reflexivity|]);
    repeat (split; [reflexivity|]).
  - split; [constructor|]. now apply status_of_replicas.
  - split; [apply (Henv (e :: l))|]. split; [apply (Henv (e :: l))|].
    now apply status_of_replicas.
Qed.

(** X9.  An update that names only an image changes the image of the first
    container of the deployment and nothing else in what it submits; on a
    deployment without containers the handler panics on the index expression
    after the read, before any update is sent. *)
Theorem image_update_touches_first_container :
  forall S (env : Env S) s c (img : string),
    img <> "" ->
    let ns := Param c "namespace" in
    let name := Param c "name" in
    let r := run env (deployment.Handler.UpdateDeployment c
                        (Bound (deployment.updateRequest.mk img None None None []))) s in
    match fst (env (ApiGet KDeployment ns name) s) with
    | Err _ => calls r = [ApiGet KDeployment ns name]
    | Ok current =>
        match Deployment.Containers current with
        | [] =>
            calls r = [ApiGet KDeployment ns name] /\
            outcome r = Panicked "runtime error: index out of range [0] with length 0"
        | first :: rest =>
            calls r = [ApiGet KDeployment ns name;
                       ApiUpdate KDeployment ns
                         (Deployment.set_Containers
                            (Container.mk (Container.Name first) img (Container.Ports first)
                                          (Container.EnvFrom first) (Container.Env first)
                             :: rest) current)]
        end
    end.
Proof.
  intros S env s c img Himg ns name r. subst ns name r. unfold calls. simpl.
  apply String.eqb_neq in Himg. rewrite Himg.
  destruct (env (ApiGet KDeployment _ _) s) as [[cur|e] s1]; simpl; [|reflexivity].
  unfold deployment.Handler.updateFirstContainer.
  destruct (Deployment.Containers cur) as [|c0 rest]; simpl; [auto|].
  destruct (env (ApiUpdate KDeployment _ _) s1) as [[u|e] s2]; reflexivity.
Qed.

Lemma image_update_witness :
  calls (run (serving_deployment sample_deployment)
           (deployment.Handler.UpdateDeployment (context "default" "web")
              (Bound (deployment.updateRequest.mk "nginx:1.25" None None None []))) tt)
  = [ApiGet KDeployment "default" "web";
     ApiUpdate KDeployment "default"
       (Deployment.mk (ObjectMeta.mk "web" "default" None None 0 "9")
          (Some 2) (Some {["app" := "web"]}) (Some {["app" := "web"]})
          [Container.mk "web" "nginx:1.25" [80] [] [];
           Container.mk "sidecar" "envoy:1.29" [9901] [] []]
          "RollingUpdate" 2 2 2 2 [])].
Proof.
  apply (image_update_touches_first_container unit (serving_deployment sample_deployment) tt
           (context "default" "web") "nginx:1.25").
  discriminate.
Defined.

(** X10.  [ScaleDeployment] reads the deployment and submits it with the
    replica count replaced and every other field as read.  A failed read ends
    the operation with the error of [GetDeployment], not wrapped a second
    time; a failed update is reported as [scale deployment].  The status
    operation on the deployment as submitted returns the new count as the
    desired one. *)
Theorem scale_replaces_the_replica_count :
  forall S (env : Env S) s ns name (replicas : Z),
    let r := run env (deployment.DeploymentAPI.ScaleDeployment ns name replicas) s in
    match env (ApiGet KDeployment ns name) s with
    | (Err err, _) =>
        calls r = [ApiGet KDeployment ns name] /\
        outcome r = Returned (Some (Base.HandleError err "get deployment"))
    | (Ok current, s1) =>
        let sent := Deployment.set_Replicas (Some replicas) current in
        calls r = [ApiGet KDeployment ns name; ApiUpdate KDeployment ns sent] /\
        outcome r = Returned (match fst (env (ApiUpdate KDeployment ns sent) s1) with
                              | Ok _ => None
                              | Err err => Some (Base.HandleError err "scale deployment")
                              end) /\
        status_desires sent replicas
    end.
Proof.
  intros S env s ns name replicas r. subst r. unfold calls. simpl.
  destruct (env (ApiGet KDeployment ns name) s) as [[cur|e] s1]; simpl; [|auto].
  split; [|split].
  - destruct (env (ApiUpdate KDeployment ns _) s1) as [[u|e] s2]; reflexivity.
  - destruct (env (ApiUpdate KDeployment ns _) s1) as [[u|e] s2]; reflexivity.
  - now apply status_of_replicas.
Qed.

(** *** Package ingress *)

Lemma ingressPath_None (p : HTTPIngressPath.t) :
  ingress.IngressAPI.ingressPath p = None <-> HTTPIngressPath.Service p = None.
Proof.
  unfold ingress.IngressAPI.ingressPath.
  destruct (HTTPIngressPath.Service p) as [[n port]|]; split; congruence.
Qed.

Lemma ingressRule_None (rule : IngressRule.t) :
  ingress.IngressAPI.ingressRule rule = None <->
  match IngressRule.HTTP rule with
  | Some paths => Exists (fun p => HTTPIngressPath.Service p = None) paths
  | None => False
  end.
Proof.
  unfold ingress.IngressAPI.ingressRule.
  destruct (IngressRule.HTTP rule) as [paths|]; simpl; [|split; [discriminate|tauto]].
  destruct (mapM ingress.IngressAPI.ingressPath paths) as [rows|] eqn:E; simpl.
  - split; [discriminate|]. intros H. exfalso.
    assert (Hn : mapM ingress.IngressAPI.ingressPath paths = None).
    { apply mapM_None. eapply Exists_impl; [exact H|]. intros p. apply ingressPath_None. }
    congruence.
  - split; [intros _|reflexivity]. apply mapM_None in E.
    eapply Exists_impl; [exact E|]. intros p. apply ingressPath_None.
Qed.

Lemma getIngressRules_None (rules : list IngressRule.t) :
  ingress.IngressAPI.getIngressRules rules = None <-> backendless rules.
Proof.
  unfold ingress.IngressAPI.getIngressRules, backendless.
  rewrite fmap_None, mapM_None. split; intros H.
  - eapply Exists_impl; [exact H|]. intros r. apply ingressRule_None.
  - eapply Exists_impl; [exact H|]. intros r. apply ingressRule_None.
Qed.

#[local] Instance backendless_dec (rules : list IngressRule.t) : Decision (backendless rules).
Proof.
  unfold backendless. apply Exists_dec. intros rule.
  destruct (IngressRule.HTTP rule); apply _.
Defined.

(** X11.  The ingress operations that render rules dereference the service
    backend of every path: [GetIngressStatus] panics exactly when some path
    of the fetched ingress has none and returns a report otherwise, and the
    list handler panics exactly when some ingress of the fetched list has such
    a path, so that one such ingress takes the whole list response with it. *)
Theorem ingress_rendering_needs_backends :
  forall S (env : Env S) s c,
    let ns := Param c "namespace" in
    let name := Param c "name" in
    match fst (env (ApiGet KIngress ns name) s) with
    | Ok ing =>
        let r := run env (ingress.IngressAPI.GetIngressStatus ns name) s in
        if decide (backendless (Ingress.Rules ing))
        then outcome r = Panicked nilDereference
        else exists status, outcome r = Returned (Ok (Base.NewSuccessResponse status))
    | Err err =>
        outcome (run env (ingress.IngressAPI.GetIngressStatus ns name) s)
        = Returned (Err (Base.HandleError err "get ingress"))
    end /\
    match fst (env (ApiList KIngress ns) s) with
    | Ok items =>
        let r := run env (ingress.Handler.ListIngresses c) s in
        if decide (Exists (fun ing => backendless (Ingress.Rules ing)) items)
        then outcome r = Panicked nilDereference
        else exists rows, outcome r = Returned (JSON StatusOK (success (slice_value rows))) /\
                          length rows = length items
    | Err err =>
        outcome (run env (ingress.Handler.ListIngresses c) s)
        = Returned (serverError (Base.HandleError err "list ingresses"))
    end.
Proof.
  intros S env s c ns name. subst ns name. split.
  - simpl. destruct (env (ApiGet KIngress _ _) s) as [[ing|e] s1]; simpl; [|reflexivity].
    destruct (decide (backendless (Ingress.Rules ing))) as [D|D].
    + apply getIngressRules_None in D. now rewrite D.
    + destruct (ingress.IngressAPI.getIngressRules (Ingress.Rules ing)) as [rows|] eqn:E.
      * simpl. eauto.
      * exfalso. apply D. now apply getIngressRules_None.
  - simpl. destruct (env (ApiList KIngress _) s) as [[items|e] s1]; simpl; [|reflexivity].
    destruct (decide (Exists (fun ing => backendless (Ingress.Rules ing)) items)) as [D|D].
    + assert (Hn : mapM ingress.Handler.listRow items = None).
      { apply mapM_None. eapply Exists_impl; [exact D|]. intros ing Hb.
        unfold ingress.Handler.listRow. apply getIngressRules_None in Hb. now rewrite Hb. }
      now rewrite Hn.
    + destruct (mapM ingress.Handler.listRow items) as [rows|] eqn:E.
      * simpl. exists rows. split; [reflexivity|]. symmetry. eapply length_mapM, E.
      * exfalso. apply D. apply mapM_None in E.
        eapply Exists_impl; [exact E|]. intros ing Hrow.
        unfold ingress.Handler.listRow in Hrow.
        destruct (ingress.IngressAPI.getIngressRules (Ingress.Rules ing)) eqn:G;
          [discriminate|]. now apply getIngressRules_None.
Qed.

Lemma mapM_map_Some {A B C : Type} (f : B -> option C) (g : A -> B) (h : A -> C)
    (l : list A) :
  (forall x, f (g x) = Some (h x)) -> mapM f (map g l) = Some (map h l).
Proof.
  intros H. induction l as [|x l IH]; [reflexivity|].
  simpl. rewrite H. simpl. rewrite IH. reflexivity.
Qed.

Lemma mapM_requested_rules (rules : list ingress.ruleRequest.t) :
  mapM ingress.IngressAPI.ingressRule (ingress.Handler.ingressRules rules)
  = Some (map requested_rule_row rules).
Proof.
  unfold ingress.Handler.ingressRules. apply mapM_map_Some. intros r.
  unfold ingress.IngressAPI.ingressRule. cbv beta iota delta [IngressRule.HTTP].
  rewrite (mapM_map_Some _ _ requested_path_row); [reflexivity|].
  intros p. reflexivity.
Qed.

(** X12.  The rules the handlers build from a request always render: every
    path has a service backend, so [getIngressRules] does not panic on them,
    and it gives one row per rule, with the host of the rule and one path row
    per path, each naming the path, its type and its service with the port
    number. *)
Theorem requested_rules_always_render :
  forall rules : list ingress.ruleRequest.t,
    ~ backendless (ingress.Handler.ingressRules rules) /\
    ingress.IngressAPI.getIngressRules (ingress.Handler.ingressRules rules)
    = Some (slice_value (map requested_rule_row rules)).
Proof.
  intros rules.
  assert (H : ingress.IngressAPI.getIngressRules (ingress.Handler.ingressRules rules)
              = Some (slice_value (map requested_rule_row rules))).
  { unfold ingress.IngressAPI.getIngressRules. now rewrite mapM_requested_rules. }
  split; [|exact H].
  intros Hb. apply getIngressRules_None in Hb. congruence.
Qed.

(** *** Package namespace *)

(** X13.  Whatever phase strings the fetched pods carry, each counter of the
    namespace metrics is the number of pods whose phase string is its key: a
    seeded key ([running], [pending], [failed], [succeeded]) is always
    present, also at zero, and any other key is present exactly when some pod
    has it as its phase. *)
Theorem status_counts_by_phase_string :
  forall (pods : list Pod.t) (k : string),
    namespace.NamespaceAPI.countByStatus pods !! k
    = if decide (k ∈ ["running"; "pending"; "failed"; "succeeded"])
      then Some (tally k pods)
      else if decide (tally k pods = 0) then None else Some (tally k pods).
Proof.
  intros pods k. unfold namespace.NamespaceAPI.countByStatus.
  assert (Hseed : forall x, namespace.NamespaceAPI.seededStatus !! k = Some x -> 0 <= x).
  { intros x. unfold namespace.NamespaceAPI.seededStatus.
    rewrite !lookup_insert, lookup_empty.
    repeat case_decide; intros [= <-]; lia. }
  rewrite count_lookup by exact Hseed. clear Hseed.
  destruct (decide (k ∈ ["running"; "pending"; "failed"; "succeeded"])) as [Hk|Hk].
  - apply list_elem_of_In in Hk. simpl in Hk.
    destruct Hk as [<-|[<-|[<-|[<-|[]]]]]; reflexivity.
  - assert (Hn : namespace.NamespaceAPI.seededStatus !! k = None).
    { unfold namespace.NamespaceAPI.seededStatus.
      rewrite !lookup_insert_ne; [apply lookup_empty|..];
        intros <-; apply Hk; apply list_elem_of_In; simpl; tauto. }
    rewrite Hn. unfold bump.
    destruct (Z.eqb_spec (tally k pods) 0); case_decide; congruence.
Qed.

Lemma total_insert_fresh (m : gmap string Z) (k : string) (v : Z) :
  m !! k = None -> total (<[k := v]> m) = v + total m.
Proof.
  intros H. unfold total. rewrite map_fold_insert_L; [reflexivity| |exact H].
  intros. lia.
Qed.

Lemma total_increment (m : gmap string Z) (k : string) :
  total (namespace.NamespaceAPI.increment k m) = total m + 1.
Proof.
  unfold namespace.NamespaceAPI.increment.
  destruct (m !! k) as [n|] eqn:E.
  - rewrite <- (insert_delete_id m k n E) at 2.
    rewrite <- insert_delete_eq.
    rewrite !total_insert_fresh by apply lookup_delete_eq. lia.
  - rewrite total_insert_fresh by exact E. lia.
Qed.

(** X14.  The counters of the namespace metrics add up to [podCount]: every
    fetched pod is counted once, under one key. *)
Theorem status_counters_add_up :
  forall pods : list Pod.t,
    total (namespace.NamespaceAPI.countByStatus pods) = Z.of_nat (length pods).
Proof.
  intros pods. unfold namespace.NamespaceAPI.countByStatus.
  assert (H : forall m, total (fold_left (fun status pod =>
                namespace.NamespaceAPI.increment (Pod.Phase pod) status) pods m)
              = total m + Z.of_nat (length pods)).
  { induction pods as [|p l IH]; intros m; simpl fold_left.
    - simpl. lia.
    - rewrite IH, total_increment. simpl length. lia. }
  rewrite H.
  unfold namespace.NamespaceAPI.seededStatus.
  rewrite !total_insert_fresh.
  - unfold total. rewrite map_fold_empty. lia.
  - apply lookup_empty.
  - rewrite lookup_insert_ne by discriminate. apply lookup_empty.
  - rewrite !lookup_insert_ne by discriminate. apply lookup_empty.
  - rewrite !lookup_insert_ne by discriminate. apply lookup_empty.
Qed.

(** *** The usage report as a whole *)



(** *** Package base *)

Lemma append_nil_r (a : string) : a +:+ "" = a.
Proof.
  induction a as [|x a IH]; [reflexivity|].
  change (String x (a +:+ "") = String x a). now f_equal.
Qed.

(** X16.  The text of an error that went through [HandleError] is the
    operation name, [ failed: ] and the text of the error it was given,
    followed by the code and the reason when that was a status error of the
    remote API.  The result is never a status error itself, so a second
    [HandleError] adds only its own operation name; a status error is not kept
    as the cause, every other error is. *)
Theorem handled_error_text :
  forall (err : error) (operation : string),
    Error (Base.HandleError err operation)
    = operation +:+ " failed: " +:+ Error err +:+
      match err with
      | StatusError st =>
          " (Code: " +:+ itoa (Status.Code st) +:+ ", Reason: " +:+ Status.Reason st +:+ ")"
      | _ => ""
      end /\
    (forall st, Base.HandleError err operation <> StatusError st) /\
    (forall again,
        Error (Base.HandleError (Base.HandleError err operation) again)
        = again +:+ " failed: " +:+ Error (Base.HandleError err operation)) /\
    match err with
    | StatusError _ => forall msg cause, Base.HandleError err operation <> WrapError msg cause
    | _ => exists msg, Base.HandleError err operation = WrapError msg err
    end.
Proof.
  intros err operation. split; [|split; [|split]].
  - destruct err; cbn [Base.HandleError Error]; rewrite ?append_nil_r; reflexivity.
  - intros st. destruct err; discriminate.
  - intros again. destruct err; reflexivity.
  - destruct err; simpl; try (intros; discriminate); eauto.
Qed.

(** *** Package config *)

(** [getEnv] is one lookup, with the default standing in for an unset
    variable. *)
Lemma run_getEnv {R S : Type} (env : Env S) (key d : string)
    (k : string -> Prog R) (s : S) :
  run env (bind (config.getEnv key d) k) s
  = let '(v, s') := env (LookupEnv key) s in
    prepend (event (LookupEnv key) v) (run env (k (or_default v d)) s').
Proof.
  unfold config.getEnv. cbn [bind call]. rewrite run_vis.
  destruct (env (LookupEnv key) s) as [[v|] s']; reflexivity.
Qed.

Ltac settings :=
  repeat (rewrite run_getEnv;
          match goal with
          | |- context [let '(_, _) := ?e in _] => destruct e as [? ?]
          end; cbv beta iota);
  rewrite run_ret.

(** X17.  [Load] fails in two ways only: the home directory cannot be found
    when [KUBECONFIG] is empty, or [os.Stat] reports that the kubeconfig path
    does not exist; the failing answer is the last of the run.  Any other
    answer of [os.Stat], another error included, lets it succeed.  The home
    directory is asked for exactly when [KUBECONFIG] is empty, and the path in
    the returned configuration is the cleaned path that was examined. *)
Theorem Load_failure_modes :
  forall S (env : Env S) s,
    let r := run env config.Load s in
    existsb is_home (calls r) = existsb (is_unset "KUBECONFIG") (trace r) /\
    match outcome r with
    | Returned (Ok cfg) =>
        existsb is_load_failure (trace r) = false /\
        existsb (is_cleaned_to (config.KubeConfig cfg)) (trace r) = true /\
        existsb (is_stat_of (config.KubeConfig cfg)) (calls r) = true
    | Returned (Err _) =>
        exists ev, last (trace r) = Some ev /\ is_load_failure ev = true
    | _ => False
    end.
Proof.
  intros S env s r. subst r. unfold calls.
  unfold config.Load.
  vis. vis. destruct (String.eqb r0 "") eqn:Hk; cbn [bind call].
  - vis. destruct r1 as [home|e]; cbn [bind call]; [|done_run].
    vis. vis. vis.
    destruct r3 as [[e [|]]|]; [done_run| |];
      settings; cbn; rewrite Hk, ?String.eqb_refl, ?orb_true_r; cbn; auto.
  - vis. vis.
    destruct r2 as [[e [|]]|]; [done_run| |];
      settings; cbn; rewrite Hk, ?String.eqb_refl, ?orb_true_r; cbn; auto.
Qed.

(** X18.  In the configuration [Load] returns, each setting is what
    [os.LookupEnv] answered for its variable, also when that is the empty
    string, and the built-in default only when the variable is unset:
    [:8080] for [SERVER_ADDRESS], [info] for [LOG_LEVEL], [development] for
    [ENV], [http://localhost:9000] for [K8S_HOST]. *)
Theorem Load_settings_and_defaults :
  forall S (env : Env S) s,
    let r := run env config.Load s in
    match outcome r with
    | Returned (Ok cfg) =>
        config.ServerAddress cfg = or_default (looked_up "SERVER_ADDRESS" (trace r)) ":8080" /\
        config.LogLevel cfg = or_default (looked_up "LOG_LEVEL" (trace r)) "info" /\
        config.Environment cfg = or_default (looked_up "ENV" (trace r)) "development" /\
        config.K8sHost cfg
        = or_default (looked_up "K8S_HOST" (trace r)) "http://localhost:9000"
    | _ => True
    end.
Proof.
  intros S env s r. subst r.
  unfold config.Load.
  vis. vis. destruct (String.eqb r0 "") eqn:Hk; cbn [bind call].
  - vis. destruct r1 as [home|e]; cbn [bind call]; [|done_run].
    vis. vis. vis.
    destruct r3 as [[e [|]]|]; [done_run| |]; settings; cbn; auto.
  - vis. vis.
    destruct r2 as [[e [|]]|]; [done_run| |]; settings; cbn; auto.
Qed.

(** *** Package kubernetes *)

(** X19.  The token version of [NewClient] builds at most one client, from
    the host and token [os.Getenv] answered and with TLS verification switched
    off, and none when either is empty; it never loads a kubeconfig.  The
    kubeconfig version loads the file at the given path once, with the answer
    for [K8S_HOST] as server override, and builds the client from exactly the
    configuration loaded.  In both, the clientset probed is the one built, and
    a returned handle holds it. *)
Theorem client_configuration :
  forall S (env : Env S) s path,
    (let r := run env (kubernetes.token.NewClient path) s in
     let host := getenv "K8S_HOST" (trace r) in
     let token := getenv "K8S_TOKEN" (trace r) in
     loads (calls r) = [] /\
     built (calls r)
     = (if String.eqb host "" || String.eqb token "" then []
        else [RestConfig.mk host token true]) /\
     probed (calls r) = made (trace r) /\
     match outcome r with
     | Returned (Ok client) => made (trace r) = [kubernetes.Clientset_ client]
     | _ => True
     end) /\
    (let r := run env (kubernetes.kubeconfig.NewClient path) s in
     loads (calls r) = [(path, getenv "K8S_HOST" (trace r))] /\
     built (calls r) = loaded (trace r) /\
     probed (calls r) = made (trace r) /\
     match outcome r with
     | Returned (Ok client) => made (trace r) = [kubernetes.Clientset_ client]
     | _ => True
     end).
Proof.
  intros S env s path. unfold calls. split.
  - unfold kubernetes.token.NewClient, kubernetes.connect, kubernetes.IsHealthy.
    vis. vis.
    destruct (String.eqb r "") eqn:Hhost; [done_run|].
    destruct (String.eqb r0 "") eqn:Htoken; [done_run|].
    vis. destruct r1 as [cs|e]; [|done_run].
    vis. destruct r1 as [v|e]; done_run.
  - unfold kubernetes.kubeconfig.NewClient, kubernetes.connect, kubernetes.IsHealthy.
    vis. vis. destruct r0 as [cfg|e]; [|done_run].
    vis. destruct r0 as [cs|e]; [|done_run].
    vis. destruct r0 as [v|e]; done_run.
Qed.

(** *** Package main *)



(** *** The write handlers *)

(** The object the next call submits for creation. *)
Ltac submitted :=
  cbn [bind call];
  match goal with
  | |- context [Vis (ApiCreate _ _ ?o) _] => exists o
  end;
  rewrite run_vis.

(** X21.  Each of the five create handlers, given a decoded body, issues one
    call: it creates an object with the name of the body in the namespace of
    the route, and that namespace is also the one written into the object.
    It answers 201 exactly when the remote API accepted the object (the
    ingress handler can panic while rendering the answer) and 500 with the
    handled error otherwise. *)
Theorem create_handlers_create_once :
  forall S (env : Env S) s c,
    let ns := Param c "namespace" in
    (forall req,
        creates_once KConfigMap "create configmap" env s ns (configmap.configMapRequest.Name req)
          (run env (configmap.Handler.CreateConfigMap c (Bound req)) s)) /\
    (forall req,
        creates_once KSecret "create secret" env s ns (secret.secretRequest.Name req)
          (run env (secret.Handler.CreateSecret c (Bound req)) s)) /\
    (forall req,
        creates_once KService "create service" env s ns (service.serviceRequest.Name req)
          (run env (service.Handler.CreateService c (Bound req)) s)) /\
    (forall req,
        creates_once KDeployment "create deployment" env s ns
          (deployment.deploymentRequest.Name req)
          (run env (deployment.Handler.CreateDeployment c (Bound req)) s)) /\
    (forall req,
        creates_once KIngress "create ingress" env s ns (ingress.ingressRequest.Name req)
          (run env (ingress.Handler.CreateIngress c (Bound req)) s)).
Proof.
  intros S env s c ns. subst ns. unfold creates_once, calls.
  split; [|split; [|split; [|split]]]; intros req.
  - unfold configmap.Handler.CreateConfigMap, configmap.ConfigMapAPI.CreateConfigMap.
    submitted. destruct (env (ApiCreate _ _ _) s) as [[r|e] s1]; cbn; auto.
  - unfold secret.Handler.CreateSecret, secret.SecretAPI.CreateSecret.
    submitted. destruct (env (ApiCreate _ _ _) s) as [[r|e] s1]; cbn; auto.
  - unfold service.Handler.CreateService, service.ServiceAPI.CreateService.
    submitted. destruct (env (ApiCreate _ _ _) s) as [[r|e] s1]; cbn; auto.
  - unfold deployment.Handler.CreateDeployment, deployment.DeploymentAPI.CreateDeployment.
    submitted. destruct (env (ApiCreate _ _ _) s) as [[r|e] s1]; cbn; auto.
  - unfold ingress.Handler.CreateIngress, ingress.IngressAPI.CreateIngress,
      ingress.Handler.withRules.
    submitted. destruct (env (ApiCreate _ _ _) s) as [[r|e] s1]; cbn; auto.
    destruct (ingress.IngressAPI.getIngressRules _); cbn; auto.
Qed.

Lemma run_panic {R S : Type} (env : Env S) (msg : string) (s : S) :
  @run R S env (Panic msg) s = mkRun [] (Panicked msg) s.
Proof. reflexivity. Qed.

(** The object the next call submits as update. *)
Ltac resubmitted :=
  cbn [bind call];
  match goal with
  | |- context [Vis (ApiUpdate _ _ ?o) _] => right; exists o
  end;
  rewrite run_vis.

(** The read that opens an update handler. *)
Ltac read_current env s :=
  cbn [bind call]; rewrite run_vis;
  destruct (env (ApiGet _ _ _) s) as [[cur|e] s1]; cbn [fst bind call]; cbv beta iota;
  cbn [bind call]; [|rewrite run_ret; reflexivity].

(** X22.  Each of the five update handlers, given a decoded body, reads the
    object by the namespace and name of the route and sends at most one
    update, to the same namespace: whatever the body asks for, the object sent
    has the name, namespace, creation time and resource version of the object
    read.  Nothing is sent when the read fails, nor when the deployment
    handler panics on a deployment without containers. *)
Theorem update_handlers_keep_identity :
  forall S (env : Env S) s c,
    let ns := Param c "namespace" in
    let name := Param c "name" in
    (forall req,
        keeps_identity KConfigMap env s ns name
          (run env (configmap.Handler.UpdateConfigMap c (Bound req)) s)) /\
    (forall req,
        keeps_identity KSecret env s ns name
          (run env (secret.Handler.UpdateSecret c (Bound req)) s)) /\
    (forall req,
        keeps_identity KService env s ns name
          (run env (service.Handler.UpdateService c (Bound req)) s)) /\
    (forall req,
        keeps_identity KDeployment env s ns name
          (run env (deployment.Handler.UpdateDeployment c (Bound req)) s)) /\
    (forall req,
        keeps_identity KIngress env s ns name
          (run env (ingress.Handler.UpdateIngress c (Bound req)) s)).
Proof.
  intros S env s c ns name. subst ns name. unfold keeps_identity, calls.
  split; [|split; [|split; [|split]]]; intros req.
  - unfold configmap.Handler.UpdateConfigMap, configmap.ConfigMapAPI.GetConfigMap,
      configmap.ConfigMapAPI.UpdateConfigMap.
    read_current env s. resubmitted.
    destruct (env (ApiUpdate _ _ _) s1) as [[r|e'] s2]; cbn [fst];
      (split; [reflexivity|]);
      destruct req as [[d|] [b|] [l|] [a|]]; reflexivity.
  - unfold secret.Handler.UpdateSecret, secret.SecretAPI.GetSecret,
      secret.SecretAPI.UpdateSecret.
    read_current env s. resubmitted.
    destruct (env (ApiUpdate _ _ _) s1) as [[r|e'] s2]; cbn [fst];
      (split; [reflexivity|]);
      destruct req as [[d|] [l|] [a|]]; reflexivity.
  - unfold service.Handler.UpdateService, service.ServiceAPI.GetService,
      service.ServiceAPI.UpdateService.
    read_current env s. resubmitted.
    destruct (env (ApiUpdate _ _ _) s1) as [[r|e'] s2]; cbn [fst];
      (split; [reflexivity|]);
      destruct req as [[|p ports] [sel|] [l|] [ips|]]; reflexivity.
  - unfold deployment.Handler.UpdateDeployment, deployment.DeploymentAPI.GetDeployment,
      deployment.DeploymentAPI.UpdateDeployment, deployment.Handler.updateFirstContainer.
    read_current env s.
    destruct req as [image [n|] [l|] [a|] [|v vars]], (Deployment.Containers cur) eqn:Hc;
      cbn -[run]; rewrite ?Hc; cbn -[run];
      destruct (String.eqb image ""); cbn -[run]; rewrite ?Hc; cbn -[run];
      first [ left; rewrite run_panic; split; [reflexivity | eexists; reflexivity]
            | resubmitted;
              destruct (env (ApiUpdate _ _ _) s1) as [[r|e'] s2]; cbn [fst];
              (split; reflexivity) ].
  - unfold ingress.Handler.UpdateIngress, ingress.IngressAPI.GetIngress,
      ingress.IngressAPI.UpdateIngress, ingress.Handler.withRules.
    read_current env s. resubmitted.
    destruct (env (ApiUpdate _ _ _) s1) as [[r|e'] s2]; cbn [fst];
      (split;
       [ cbn -[ingress.IngressAPI.getIngressRules];
         try destruct (ingress.IngressAPI.getIngressRules _); reflexivity
       | destruct req as [cls [|r0 rules] [|t tls] [a|] [l|]]; cbn;
         destruct (String.eqb cls ""); reflexivity ]).
Qed.

(** *** The route table *)

